(** * Target resolution and template substitution of notion-agent-hub

    Shallow embedding of [scripts/create_project.py] and
    [scripts/notion_client.py]: the friendly-name resolver
    [resolve_target] (present in both scripts), the placeholder pass
    [replace_placeholders], and the body assembly of the two page-creation
    entry points.

    Python strings are modelled as Stdlib [string]s (one [ascii] per
    character).  Parsed JSON is the inductive [json]; a Python dict coming
    from [json.load] is an association list in insertion order, with
    unique keys. *)

From Stdlib Require Import String Ascii List ZArith Bool Lia.
Import ListNotations.
Open Scope string_scope.
Set Warnings "-register-all".

(* ------------------------------------------------------------------ *)
(** ** JSON values as produced by [json.load] *)

Inductive json : Type :=
| JNull
| JBool (b : bool)
| JNum (n : Z)
| JStr (s : string)
| JArr (items : list json)
| JObj (fields : list (string * json)).

(** Induction over the nested structure of [json]. *)
Section JsonInd.
Variable P : json -> Prop.
Hypothesis Hnull : P JNull.
Hypothesis Hbool : forall b, P (JBool b).
Hypothesis Hnum : forall n, P (JNum n).
Hypothesis Hstr : forall s, P (JStr s).
Hypothesis Harr : forall xs, Forall P xs -> P (JArr xs).
Hypothesis Hobj : forall kvs, Forall (fun kv => P (snd kv)) kvs -> P (JObj kvs).

Fixpoint json_ind' (j : json) : P j :=
  match j with
  | JNull => Hnull
  | JBool b => Hbool b
  | JNum n => Hnum n
  | JStr s => Hstr s
  | JArr xs =>
      Harr xs
        ((fix go (l : list json) : Forall P l :=
            match l with
            | [] => Forall_nil _
            | x :: r => Forall_cons _ (json_ind' x) (go r)
            end) xs)
  | JObj kvs =>
      Hobj kvs
        ((fix go (l : list (string * json)) : Forall (fun kv => P (snd kv)) l :=
            match l with
            | [] => Forall_nil _
            | kv :: r => Forall_cons _ (json_ind' (snd kv)) (go r)
            end) kvs)
  end.
End JsonInd.

(** Dict operations on the field list of a JSON object. *)

(** [d.get(k)] / [k in d]: the entry stored under [k]. *)
Fixpoint dict_get (kvs : list (string * json)) (k : string) : option json :=
  match kvs with
  | [] => None
  | (k', v) :: r => if String.eqb k k' then Some v else dict_get r k
  end.

(** [d[k] = v]: an existing key keeps its position, a new key is appended. *)
Fixpoint dict_set (kvs : list (string * json)) (k : string) (v : json)
  : list (string * json) :=
  match kvs with
  | [] => [(k, v)]
  | (k', v') :: r =>
      if String.eqb k k' then (k', v) :: r else (k', v') :: dict_set r k v
  end.

(** [d.pop(k, None)]: the entry under [k] is removed (keys are unique, so
    dropping every entry with key [k] drops that one entry). *)
Definition dict_pop (kvs : list (string * json)) (k : string)
  : list (string * json) :=
  filter (fun kv => negb (String.eqb k (fst kv))) kvs.

(** [d.keys()] *)
Definition dict_keys (kvs : list (string * json)) : list string := map fst kvs.

(* ------------------------------------------------------------------ *)
(** ** Python's [str.replace(old, new)] *)

(** Left-to-right, non-overlapping scan.  [skip] counts the characters of
    a match that are still to be passed over. *)
Fixpoint replace_from (old new : string) (skip : nat) (s : string) : string :=
  match s with
  | EmptyString => EmptyString
  | String c rest =>
      match skip with
      | S k => replace_from old new k rest
      | O =>
          if String.prefix old s
          then new ++ replace_from old new (String.length old - 1) rest
          else String c (replace_from old new 0 rest)
      end
  end.

(** With an empty [old], Python inserts [new] around every character. *)
Fixpoint insert_everywhere (new s : string) : string :=
  match s with
  | EmptyString => new
  | String c rest => new ++ String c (insert_everywhere new rest)
  end.

Definition str_replace (old new s : string) : string :=
  match old with
  | EmptyString => insert_everywhere new s
  | String _ _ => replace_from old new 0 s
  end.

(* ------------------------------------------------------------------ *)
(** ** [replace_placeholders] (create_project.py) *)

(** [f"{{{{{key}}}}}"] is the text ["{{" + key + "}}"]. *)
Definition token (key : string) : string := "{{" ++ key ++ "}}".

(** The string case: [for key, value in replacements.items():
    obj = obj.replace(f"{{{{{key}}}}}", value)]. *)
Fixpoint subst_str (replacements : list (string * string)) (obj : string) : string :=
  match replacements with
  | [] => obj
  | (key, value) :: r => subst_str r (str_replace (token key) value obj)
  end.

Fixpoint replace_placeholders (obj : json) (replacements : list (string * string))
  : json :=
  match obj with
  | JStr s => JStr (subst_str replacements s)
  | JArr items => JArr (map (fun item => replace_placeholders item replacements) items)
  | JObj kvs =>
      JObj (map (fun kv => (fst kv, replace_placeholders (snd kv) replacements)) kvs)
  | _ => obj
  end.

(* ------------------------------------------------------------------ *)
(** ** Outcomes of a script step *)

(** [Return v]: the function returns [v].  [Exit code lines]: the lines
    printed to stderr, then [sys.exit(code)].  [Raise exn lines]: an
    uncaught Python exception named [exn] after [lines] were printed. *)
Inductive outcome (A : Type) : Type :=
| Return (v : A)
| Exit (code : Z) (stderr : list string)
| Raise (exn : string) (stderr : list string).
Arguments Return {A} v.
Arguments Exit {A} code stderr.
Arguments Raise {A} exn stderr.

Definition bind {A B} (m : outcome A) (k : A -> outcome B) : outcome B :=
  match m with
  | Return a => k a
  | Exit c e => Exit c e
  | Raise x e => Raise x e
  end.

Notation "x <- m ;; k" := (bind m (fun x => k))
  (at level 61, m at next level, right associativity).

(** The configuration document on disk: missing; present but not
    readable as text ([open] or the decoding raises [exn], e.g.
    [IsADirectoryError] or [UnicodeDecodeError]); readable text that is
    not JSON; or parsed by [json.load]. *)
Inductive config_file : Type :=
| CfgAbsent
| CfgUnreadable (exn : string)
| CfgMalformed
| CfgParsed (config : json).

(* ------------------------------------------------------------------ *)
(** ** Pieces shared by both copies of [resolve_target] *)

(** [c in s] for a one-character string [c]. *)
Fixpoint str_mem (c : ascii) (s : string) : bool :=
  match s with
  | EmptyString => false
  | String c' rest => Ascii.eqb c c' || str_mem c rest
  end.

(** [all(c in "0123456789abcdef" for c in cleaned)] *)
Fixpoint all_hex (cleaned : string) : bool :=
  match cleaned with
  | EmptyString => true
  | String c rest => str_mem c "0123456789abcdef" && all_hex rest
  end.

(** [cleaned = name.replace("-", "")] and
    [len(cleaned) == 32 and all(...)]. *)
Definition looks_raw (name : string) : bool :=
  let cleaned := str_replace "-" "" name in
  Nat.eqb (String.length cleaned) 32 && all_hex cleaned.

(** [config.get("targets", {})]; only a dict has [.get]. *)
Definition get_targets (config : json) : outcome json :=
  match config with
  | JObj kvs =>
      Return (match dict_get kvs "targets" with Some t => t | None => JObj [] end)
  | _ => Raise "AttributeError" []
  end.

(** [targets[name]["id"]] once [name in targets] held. *)
Definition entry_id (entry : json) : outcome json :=
  match entry with
  | JObj kvs =>
      match dict_get kvs "id" with
      | Some v => Return v
      | None => Raise "KeyError" []
      end
  | _ => Raise "TypeError" []
  end.

Definition not_found_line (name : string) : string :=
  "Error: Target '" ++ name ++ "' not found in notion-config.json".

Definition available_line (names : list string) : string :=
  "Available targets: " ++ String.concat ", " names.

(** Substring test [a in b] of Python strings. *)
Fixpoint contains (a b : string) : bool :=
  String.prefix a b ||
  match b with
  | EmptyString => false
  | String _ rest => contains a rest
  end.

(** [if name not in targets: print(...); print(...); sys.exit(1)]
    followed by [return targets[name]["id"]].  A dict tests its keys;
    a list tests its elements and a string its substrings, and neither has
    [.keys()] nor string indexing; any other value is not iterable. *)
Definition lookup_target (name : string) (targets : json) : outcome json :=
  match targets with
  | JObj kvs =>
      match dict_get kvs name with
      | None => Exit 1 [not_found_line name; available_line (dict_keys kvs)]
      | Some entry => entry_id entry
      end
  | JArr items =>
      if existsb (fun it => match it with JStr s => String.eqb s name | _ => false end) items
      then Raise "TypeError" []
      else Raise "AttributeError" [not_found_line name]
  | JStr t =>
      if contains name t then Raise "TypeError" []
      else Raise "AttributeError" [not_found_line name]
  | _ => Raise "TypeError" []
  end.

(* ------------------------------------------------------------------ *)
(** ** notion_client.py *)

Module NotionClient.

(** [load_config()]; [config_path] is the printed [CONFIG_PATH]. *)
Definition load_config (config_path : string) (cfg : config_file) : outcome json :=
  match cfg with
  | CfgAbsent => Exit 1 ["Error: Config not found at " ++ config_path]
  | CfgUnreadable exn => Raise exn []
  | CfgMalformed => Raise "JSONDecodeError" []
  | CfgParsed config => Return config
  end.

Definition resolve_target (config_path : string) (cfg : config_file) (name : string)
  : outcome json :=
  if looks_raw name then Return (JStr name)
  else
    config <- load_config config_path cfg ;;
    targets <- get_targets config ;;
    lookup_target name targets.

End NotionClient.

(* ------------------------------------------------------------------ *)
(** ** create_project.py *)

Module CreateProject.

(** Here the configuration read is written inline. *)
Definition resolve_target (config_path : string) (cfg : config_file) (name : string)
  : outcome json :=
  if looks_raw name then Return (JStr name)
  else
    match cfg with
    | CfgAbsent => Exit 1 ["Error: Config not found at " ++ config_path]
    | CfgUnreadable exn => Raise exn []
    | CfgMalformed => Raise "JSONDecodeError" []
    | CfgParsed config =>
        targets <- get_targets config ;;
        lookup_target name targets
    end.

End CreateProject.

(* ------------------------------------------------------------------ *)
(** ** Body assembly of the page-creation entry points *)

(** [str(PurePosixPath)] of a joined path.  [s.split("/")]: *)
Fixpoint split_slash (s : string) : list string :=
  match s with
  | EmptyString => [EmptyString]
  | String c rest =>
      let ps := split_slash rest in
      if Ascii.eqb c "/"%char then EmptyString :: ps
      else match ps with
           | p :: ps' => String c p :: ps'
           | [] => [String c EmptyString]
           end
  end.

(** The components pathlib keeps: empty and ["."] segments are dropped. *)
Definition path_parts (s : string) : list string :=
  filter (fun p => negb (String.eqb p "" || String.eqb p ".")) (split_slash s).

(** The root: exactly two leading slashes are kept, more collapse to one. *)
Definition path_lead (s : string) : string :=
  if String.prefix "//" s && negb (String.prefix "///" s) then "//"
  else if String.prefix "/" s then "/" else "".

Definition path_render (lead : string) (parts : list string) : string :=
  match parts with
  | [] => if String.eqb lead "" then "." else lead
  | _ => lead ++ String.concat "/" parts
  end.

(** [str(base / rel)]: an absolute [rel] replaces [base]. *)
Definition path_join (base rel : string) : string :=
  if String.prefix "/" rel then path_render (path_lead rel) (path_parts rel)
  else path_render (path_lead base) (path_parts base ++ path_parts rel)%list.

(** [load_template(name)] over the files of the templates directory;
    [templates_dir] is [str(TEMPLATES_DIR)] and the message shows
    [TEMPLATES_DIR / f"{name}.json"]. *)
Definition load_template (templates_dir : string) (templates : string -> option json)
  (name : string) : outcome json :=
  match templates name with
  | Some t => Return t
  | None => Exit 1 ["Error: Template '" ++ name ++ "' not found at "
                     ++ path_join templates_dir (name ++ ".json")]
  end.

Definition parent_ref (parent_id : string) : json := JObj [("page_id", JStr parent_id)].

Module CreateProjectPage.

Definition icon_ref (icon : string) : json :=
  JObj [("type", JStr "emoji"); ("emoji", JStr icon)].

(** [create_project_page] up to the [client.pages.create] call: the body
    handed to the API.  [copy.deepcopy] of a parsed tree is the same
    tree; [body[...] = ...] needs a dict. *)
Definition create_project_page_body (templates_dir : string)
  (templates : string -> option json) (parent_id project_name today : string)
  (template_name icon : string) : outcome json :=
  template <- load_template templates_dir templates template_name ;;
  let replacements := [("PROJECT_NAME", project_name); ("DATE", today)] in
  match replace_placeholders template replacements with
  | JObj body =>
      let body := dict_set body "parent" (parent_ref parent_id) in
      let body := dict_set body "icon" (icon_ref icon) in
      Return (JObj (dict_pop body "object"))
  | _ => Raise "TypeError" []
  end.

End CreateProjectPage.

Module CmdCreatePage.

(** [args.title or "Untitled"] *)
Definition title_or_default (title : option string) : string :=
  match title with
  | Some t => if String.eqb t "" then "Untitled" else t
  | None => "Untitled"
  end.

Definition default_body (title : option string) : json :=
  JObj [("properties",
         JObj [("title",
                JObj [("title",
                       JArr [JObj [("type", JStr "text");
                                   ("text", JObj [("content",
                                                   JStr (title_or_default title))])]])])]);
        ("children", JArr [])].

(** [cmd_create_page] up to the [client.pages.create] call. *)
Definition cmd_create_page_body (templates_dir : string)
  (templates : string -> option json) (parent_id : string)
  (template : option string) (title : option string) : outcome json :=
  body <- (match template with
           | Some name =>
               if String.eqb name "" then Return (default_body title)
               else load_template templates_dir templates name
           | None => Return (default_body title)
           end) ;;
  match body with
  | JObj body => Return (JObj (dict_set body "parent" (parent_ref parent_id)))
  | _ => Raise "TypeError" []
  end.

End CmdCreatePage.

(* ------------------------------------------------------------------ *)
(** ** Specifications of the substitution pass *)

(** One left-to-right pass of [str.replace] as a relation: at every
    position a match of [old] is replaced and the scan resumes after it;
    where [old] does not match, the character is copied. *)
Inductive replaced (old new : string) : string -> string -> Prop :=
| rep_nil : replaced old new EmptyString EmptyString
| rep_hit s t :
    replaced old new s t -> replaced old new (old ++ s) (new ++ t)
| rep_miss c s t :
    String.prefix old (String c s) = false ->
    replaced old new s t -> replaced old new (String c s) (String c t).

(** One pass per key of the replacement set, in its iteration order. *)
Inductive seq_replaced : list (string * string) -> string -> string -> Prop :=
| seq_nil s : seq_replaced [] s s
| seq_cons key value r s s' t :
    replaced (token key) value s s' -> seq_replaced r s' t ->
    seq_replaced ((key, value) :: r) s t.

(** Same tree shape, same mapping keys, same non-string leaves; string
    leaves related by [seq_replaced]. *)
Inductive subst_rel (r : list (string * string)) : json -> json -> Prop :=
| sr_null : subst_rel r JNull JNull
| sr_bool b : subst_rel r (JBool b) (JBool b)
| sr_num n : subst_rel r (JNum n) (JNum n)
| sr_str s t : seq_replaced r s t -> subst_rel r (JStr s) (JStr t)
| sr_arr xs ys : Forall2 (subst_rel r) xs ys -> subst_rel r (JArr xs) (JArr ys)
| sr_obj kvs kvs' :
    Forall2 (fun p q => fst p = fst q /\ subst_rel r (snd p) (snd q)) kvs kvs' ->
    subst_rel r (JObj kvs) (JObj kvs').

(** Simultaneous substitution, following the words "each token is
    replaced by its value" read as one scan over the original string: at
    each position the first key whose token matches is replaced, and the
    inserted value is not scanned again. *)
Fixpoint first_match (r : list (string * string)) (s : string)
  : option (string * string) :=
  match r with
  | [] => None
  | (key, value) :: r' =>
      if String.prefix (token key) s then Some (key, value) else first_match r' s
  end.

Fixpoint simultaneous_from (r : list (string * string)) (skip : nat) (s : string)
  : string :=
  match s with
  | EmptyString => EmptyString
  | String c rest =>
      match skip with
      | S k => simultaneous_from r k rest
      | O =>
          match first_match r s with
          | Some (key, value) =>
              value ++ simultaneous_from r (String.length (token key) - 1) rest
          | None => String c (simultaneous_from r 0 rest)
          end
      end
  end.

Definition simultaneous_subst (r : list (string * string)) (s : string) : string :=
  simultaneous_from r 0 s.

(* ------------------------------------------------------------------ *)
(** ** Store model of [replace_placeholders] *)

(** Python values as the interpreter holds them: scalars and strings by
    value (they are immutable), lists and dicts as references to mutable
    heap cells, so that sharing and mutation are visible. *)
Module Store.

Inductive pyval : Type :=
| PNone
| PBool (b : bool)
| PInt (n : Z)
| PStr (s : string)
| PRef (l : nat).

Inductive cell : Type :=
| CList (items : list pyval)
| CDict (fields : list (string * pyval)).

(** Cell [l] of the heap is its [l]-th element; allocation appends. *)
Definition heap := list cell.

Definition alloc (h : heap) (c : cell) : nat * heap := (List.length h, (h ++ [c])%list).

(** A computation that may raise; the heap is kept in either case. *)
Fixpoint map_st {A B : Type} (f : A -> heap -> option B * heap)
  (xs : list A) (h : heap) : option (list B) * heap :=
  match xs with
  | [] => (Some [], h)
  | x :: r =>
      match f x h with
      | (Some y, h1) =>
          match map_st f r h1 with
          | (Some ys, h2) => (Some (y :: ys), h2)
          | (None, h2) => (None, h2)
          end
      | (None, h1) => (None, h1)
      end
  end.

(** [replace_placeholders] on the heap.  [fuel] bounds the recursion
    depth (running out is Python's [RecursionError], e.g. on a cyclic
    list); the comprehensions build fresh containers. *)
Fixpoint replace_placeholders (fuel : nat) (obj : pyval)
  (replacements : list (string * string)) (h : heap) : option pyval * heap :=
  match fuel with
  | O => (None, h)
  | S f =>
      match obj with
      | PStr s => (Some (PStr (subst_str replacements s)), h)
      | PRef l =>
          match nth_error h l with
          | Some (CList items) =>
              match map_st (fun item => replace_placeholders f item replacements)
                      items h with
              | (Some items', h1) =>
                  let (l', h2) := alloc h1 (CList items') in (Some (PRef l'), h2)
              | (None, h1) => (None, h1)
              end
          | Some (CDict kvs) =>
              match map_st (fun kv h0 =>
                              match replace_placeholders f (snd kv) replacements h0 with
                              | (Some v', h1) => (Some (fst kv, v'), h1)
                              | (None, h1) => (None, h1)
                              end) kvs h with
              | (Some kvs', h1) =>
                  let (l', h2) := alloc h1 (CDict kvs') in (Some (PRef l'), h2)
              | (None, h1) => (None, h1)
              end
          | None => (None, h)
          end
      | _ => (Some obj, h)
      end
  end.

(** The JSON tree reachable from a value, read with depth bound [fuel]. *)
Fixpoint to_json (fuel : nat) (h : heap) (v : pyval) : option json :=
  match fuel with
  | O => None
  | S f =>
      match v with
      | PNone => Some JNull
      | PBool b => Some (JBool b)
      | PInt n => Some (JNum n)
      | PStr s => Some (JStr s)
      | PRef l =>
          match nth_error h l with
          | Some (CList items) =>
              option_map JArr
                (fold_right (fun it acc =>
                               match to_json f h it, acc with
                               | Some j, Some js => Some (j :: js)
                               | _, _ => None
                               end) (Some []) items)
          | Some (CDict kvs) =>
              option_map JObj
                (fold_right (fun kv acc =>
                               match to_json f h (snd kv), acc with
                               | Some j, Some js => Some ((fst kv, j) :: js)
                               | _, _ => None
                               end) (Some []) kvs)
          | None => None
          end
      end
  end.

(** [h[l] = c]: the cell at [l] is overwritten (a dict [__setitem__] on
    the container there); an address outside the heap changes nothing. *)
Fixpoint heap_set (h : heap) (l : nat) (c : cell) : heap :=
  match h, l with
  | [], _ => []
  | _ :: r, O => c :: r
  | x :: r, S l' => x :: heap_set r l' c
  end.

(** A template as [json.load] leaves it: [{"a": ["{{X}}", 1]}]. *)
Definition sample_heap : heap :=
  [CList [PStr "{{X}}"; PInt 1]; CDict [("a", PRef 0)]].

End Store.

(* ------------------------------------------------------------------ *)
(** ** [get_client] (identical in both scripts) *)

(** [token = os.environ.get("NOTION_API_TOKEN")]; [if not token:] covers
    both an unset and an empty variable.  The client is represented by the
    token it authenticates with. *)
Definition get_client (token : option string) : outcome string :=
  match token with
  | Some t =>
      if String.eqb t "" then Exit 1 ["Error: NOTION_API_TOKEN is not set. See .env.example."]
      else Return t
  | None => Exit 1 ["Error: NOTION_API_TOKEN is not set. See .env.example."]
  end.

(** The line [get_client] prints before exiting. *)
Definition token_error : string := "Error: NOTION_API_TOKEN is not set. See .env.example.".

(* ------------------------------------------------------------------ *)
(** ** The subcommands of notion_client.py *)

(** The calls made on the API client; their effect is remote. *)
Inductive api_call : Type :=
| PagesCreate (body : list (string * json))
| DatabasesCreate (body : list (string * json))
| PagesUpdate (page_id : json) (properties : json)
| DatabasesQuery (kwargs : list (string * json))
| BlocksChildrenAppend (block_id : json) (children : json)
| PagesRetrieve (page_id : json).

(** A call together with the token of the client that makes it. *)
Record request : Type := mk_request { req_auth : string; req_call : api_call }.

(** What a run reads from its surroundings. *)
Record env : Type := mk_env {
  env_token : option string;
  env_config_path : string;
  env_config : config_file;
  env_templates_dir : string;
  env_templates : string -> option json
}.

(** A string-valued option is truthy when given and non-empty. *)
Definition truthy (a : option string) : option string :=
  match a with
  | Some s => if String.eqb s "" then None else Some s
  | None => None
  end.

(** The arguments of each subparser, after [parser.parse_args()]. *)
Inductive command : Type :=
| CreatePage (target : string) (template title : option string)
| CreateDb (target : string) (template title : option string)
| UpdatePage (target properties : string)
| QueryDb (target : string) (filter sorts : option string)
| AppendBlocks (target blocks : string)
| GetPage (target : string).

Definition command_target (c : command) : string :=
  match c with
  | CreatePage t _ _ | CreateDb t _ _ | UpdatePage t _ | QueryDb t _ _
  | AppendBlocks t _ | GetPage t => t
  end.

Module Cli.

(** [json.loads] of the standard library, taken as given. *)
Section WithJsonLoads.
Variable json_loads : string -> outcome json.

Definition resolve (e : env) (target : string) : outcome json :=
  NotionClient.resolve_target (env_config_path e) (env_config e) target.

Definition cmd_create_page (e : env) (target : string) (template title : option string)
  : outcome request :=
  client <- get_client (env_token e) ;;
  parent_id <- resolve e target ;;
  body <- (match truthy template with
           | Some name => load_template (env_templates_dir e) (env_templates e) name
           | None => Return (CmdCreatePage.default_body title)
           end) ;;
  match body with
  | JObj body =>
      Return (mk_request client
                (PagesCreate (dict_set body "parent" (JObj [("page_id", parent_id)]))))
  | _ => Raise "TypeError" []
  end.

(** [args.title or "Untitled Database"] *)
Definition db_title_or_default (title : option string) : string :=
  match truthy title with Some t => t | None => "Untitled Database" end.

Definition default_db_body (title : option string) : json :=
  JObj [("title", JArr [JObj [("type", JStr "text");
                              ("text", JObj [("content", JStr (db_title_or_default title))])]]);
        ("properties", JObj [("Name", JObj [("title", JObj [])])])].

Definition cmd_create_db (e : env) (target : string) (template title : option string)
  : outcome request :=
  client <- get_client (env_token e) ;;
  parent_id <- resolve e target ;;
  body <- (match truthy template with
           | Some name => load_template (env_templates_dir e) (env_templates e) name
           | None => Return (default_db_body title)
           end) ;;
  match body with
  | JObj body =>
      let body := dict_set body "parent" (JObj [("page_id", parent_id)]) in
      Return (mk_request client (DatabasesCreate (dict_pop body "object")))
  | _ => Raise "TypeError" []
  end.

Definition cmd_update_page (e : env) (target properties : string) : outcome request :=
  client <- get_client (env_token e) ;;
  page_id <- resolve e target ;;
  properties <- json_loads properties ;;
  Return (mk_request client (PagesUpdate page_id properties)).

Definition cmd_query_db (e : env) (target : string) (filter sorts : option string)
  : outcome request :=
  client <- get_client (env_token e) ;;
  db_id <- resolve e target ;;
  let kwargs := [("database_id", db_id)] in
  kwargs <- (match truthy filter with
             | Some f => fj <- json_loads f ;; Return (dict_set kwargs "filter" fj)
             | None => Return kwargs
             end) ;;
  kwargs <- (match truthy sorts with
             | Some s => sj <- json_loads s ;; Return (dict_set kwargs "sorts" sj)
             | None => Return kwargs
             end) ;;
  Return (mk_request client (DatabasesQuery kwargs)).

Definition cmd_append_blocks (e : env) (target blocks : string) : outcome request :=
  client <- get_client (env_token e) ;;
  page_id <- resolve e target ;;
  children <- json_loads blocks ;;
  Return (mk_request client (BlocksChildrenAppend page_id children)).

Definition cmd_get_page (e : env) (target : string) : outcome request :=
  client <- get_client (env_token e) ;;
  page_id <- resolve e target ;;
  Return (mk_request client (PagesRetrieve page_id)).

(** [args.func(args)] in [main]. *)
Definition run_command (e : env) (c : command) : outcome request :=
  match c with
  | CreatePage t tpl ti => cmd_create_page e t tpl ti
  | CreateDb t tpl ti => cmd_create_db e t tpl ti
  | UpdatePage t p => cmd_update_page e t p
  | QueryDb t f s => cmd_query_db e t f s
  | AppendBlocks t b => cmd_append_blocks e t b
  | GetPage t => cmd_get_page e t
  end.

End WithJsonLoads.

(** The resource a call is addressed to: the [page_id] of the parent for
    a creation, the [database_id] keyword of a query, the id argument
    otherwise. *)
Definition call_target (c : api_call) : option json :=
  match c with
  | PagesCreate body | DatabasesCreate body =>
      match dict_get body "parent" with
      | Some (JObj [("page_id", v)]) => Some v
      | _ => None
      end
  | PagesUpdate id _ | BlocksChildrenAppend id _ | PagesRetrieve id => Some id
  | DatabasesQuery kwargs => dict_get kwargs "database_id"
  end.

(** A stand-in parser for the examples: ["{}"] and ["[]"] parse. *)
Definition toy_loads (s : string) : outcome json :=
  if String.eqb s "{}" then Return (JObj [])
  else if String.eqb s "[]" then Return (JArr [])
  else Raise "JSONDecodeError" [].

End Cli.

(* ------------------------------------------------------------------ *)
(** ** [main] of create_project.py *)

(** What a run shows: the lines printed to stdout, the API calls made,
    and how it ends. *)
Record trace : Type := mk_trace {
  t_stdout : list string;
  t_requests : list request;
  t_result : outcome json
}.

Module CreateProjectMain.

Section WithApi.
(** The remote service's answer to a call, and Python's [str()] of a
    non-string value inside an f-string. *)
Variable api : request -> outcome json.
Variable py_str : json -> string.

Definition show (v : json) : string :=
  match v with JStr s => s | _ => py_str v end.

(** Stops a trace at an outcome that is not a return. *)
Definition stop {A} (out : list string) (reqs : list request) (o : outcome A)
  (k : A -> trace) : trace :=
  match o with
  | Return a => k a
  | Exit c e => mk_trace out reqs (Exit c e)
  | Raise x e => mk_trace out reqs (Raise x e)
  end.

(** [create_project_page(client, parent_id, args.name, args.template,
    args.icon)] as called from [main], where [parent_id] is what
    [resolve_target] returned. *)
Definition create_page (e : env) (client : string) (parent_id : json)
  (project_name today template_name icon : string) : outcome request :=
  template <- load_template (env_templates_dir e) (env_templates e) template_name ;;
  let replacements := [("PROJECT_NAME", project_name); ("DATE", today)] in
  match replace_placeholders template replacements with
  | JObj body =>
      let body := dict_set body "parent" (JObj [("page_id", parent_id)]) in
      let body := dict_set body "icon" (CreateProjectPage.icon_ref icon) in
      Return (mk_request client (PagesCreate (dict_pop body "object")))
  | _ => Raise "TypeError" []
  end.

(** The five lines [main] prints once the parent is resolved. *)
Definition header (name parent : string) (parent_id : json) (template icon : string)
  : list string :=
  ["Creating project page: " ++ name;
   "  Parent: " ++ parent ++ " (" ++ show parent_id ++ ")";
   "  Template: " ++ template;
   "  Icon: " ++ icon;
   ""].

Definition main (e : env) (today : string) (name parent template icon : string) : trace :=
  stop [] [] (get_client (env_token e)) (fun client =>
  stop [] [] (CreateProject.resolve_target (env_config_path e) (env_config e) parent)
    (fun parent_id =>
  let out := header name parent parent_id template icon in
  stop out [] (create_page e client parent_id name today template icon) (fun req =>
  stop out [req] (api req) (fun result =>
  match result with
  | JObj fields =>
      match dict_get fields "id" with
      | Some page_id =>
          let url := match dict_get fields "url" with Some u => u | None => JStr "" end in
          mk_trace (app out ["Project page created!"; "  ID:  " ++ show page_id;
                             "  URL: " ++ show url])
                   [req] (Return result)
      | None => mk_trace out [req] (Raise "KeyError" [])
      end
  | _ => mk_trace out [req] (Raise "TypeError" [])
  end)))).

End WithApi.

End CreateProjectMain.

(* ------------------------------------------------------------------ *)
(** ** Auxiliary definitions used by the statements *)

Definition sample_config : config_file :=
  CfgParsed (JObj [("targets", JObj [("project-db", JObj [("id", JStr "xyz")])])]).

(** The spec's "with dashes removed" and "lowercase hex digit". *)
Definition strip_dashes (s : string) : string :=
  string_of_list_ascii
    (filter (fun c => negb (Ascii.eqb c "-"%char)) (list_ascii_of_string s)).

Definition lower_hex_char (c : ascii) : Prop :=
  In c (list_ascii_of_string "0123456789abcdef").

(** Whether [t] occurs in some string leaf of a document. *)
Fixpoint mentions (t : string) (j : json) : bool :=
  match j with
  | JStr s => contains t s
  | JArr items => existsb (mentions t) items
  | JObj kvs => existsb (fun kv => mentions t (snd kv)) kvs
  | _ => false
  end.

Fixpoint sdrop (n : nat) (s : string) : string :=
  match n, s with
  | O, _ => s
  | S _, EmptyString => EmptyString
  | S n', String _ rest => sdrop n' rest
  end.

(* ================================================================== *)
(** * Properties *)

(** ** Evaluation on small inputs *)

Example replace_ex1 :
  str_replace "ab" "X" "abcabab" = "XcXX".
Proof. reflexivity. Qed.

Example replace_ex2 :
  str_replace "aa" "b" "aaa" = "ba".
Proof. reflexivity. Qed.

Example replace_ex3 :
  str_replace "" "-" "ab" = "-a-b-".
Proof. reflexivity. Qed.

Example subst_ex :
  replace_placeholders (JStr "{{PROJECT_NAME}} Launch {{OTHER}}")
    [("PROJECT_NAME", "Foo")] = JStr "Foo Launch {{OTHER}}".
Proof. reflexivity. Qed.

Example resolve_ex1 :
  NotionClient.resolve_target "cfg" sample_config "project-db" = Return (JStr "xyz").
Proof. reflexivity. Qed.

Example resolve_ex2 :
  CreateProject.resolve_target "cfg" CfgAbsent "a1b2c3d4-e5f6-7890-abcd-ef1234567890"
  = Return (JStr "a1b2c3d4-e5f6-7890-abcd-ef1234567890").
Proof. reflexivity. Qed.

Example resolve_ex3 :
  NotionClient.resolve_target "cfg" (CfgParsed (JObj [("targets", JObj [])])) "missing-target"
  = Exit 1 ["Error: Target 'missing-target' not found in notion-config.json";
            "Available targets: "].
Proof. reflexivity. Qed.

Example store_ex :
  match Store.replace_placeholders 5 (Store.PRef 1) [("X", "Apollo")] Store.sample_heap with
  | (Some v', h') =>
      Store.to_json 5 h' v' = Some (replace_placeholders
                                      (JObj [("a", JArr [JStr "{{X}}"; JNum 1])])
                                      [("X", "Apollo")])
  | (None, _) => False
  end.
Proof. vm_compute. reflexivity. Qed.

(** ** Lemmas on the resolver *)

Lemma prefix_char (a c : ascii) (rest : string) :
  String.prefix (String a EmptyString) (String c rest) = Ascii.eqb a c.
Proof.
  destruct rest; cbn -[Ascii.ascii_dec];
    (destruct (Ascii.ascii_dec a c) as [->|n];
     [rewrite Ascii.eqb_refl; reflexivity | symmetry; apply Ascii.eqb_neq; exact n]).
Qed.

Lemma str_replace_dash (s : string) : str_replace "-" "" s = strip_dashes s.
Proof.
  unfold str_replace, strip_dashes.
  induction s as [|c rest IH]; [reflexivity|].
  cbn [replace_from list_ascii_of_string filter].
  rewrite prefix_char, (Ascii.eqb_sym "-"%char c).
  destruct (Ascii.eqb c "-"%char); cbn; rewrite IH; reflexivity.
Qed.

Lemma str_mem_In (c : ascii) (s : string) :
  str_mem c s = true <-> In c (list_ascii_of_string s).
Proof.
  induction s as [|c' rest IH]; simpl; [split; [discriminate|contradiction]|].
  rewrite Bool.orb_true_iff, IH, Ascii.eqb_eq. intuition.
Qed.

Lemma all_hex_Forall (s : string) :
  all_hex s = true <-> Forall lower_hex_char (list_ascii_of_string s).
Proof.
  induction s as [|c rest IH]; cbn [all_hex list_ascii_of_string]; [split; auto|].
  rewrite Bool.andb_true_iff, IH, str_mem_In, Forall_cons_iff. reflexivity.
Qed.

Lemma looks_raw_iff (name : string) :
  looks_raw name = true <->
  String.length (strip_dashes name) = 32 /\
  Forall lower_hex_char (list_ascii_of_string (strip_dashes name)).
Proof.
  unfold looks_raw. rewrite str_replace_dash, Bool.andb_true_iff,
    Nat.eqb_eq, all_hex_Forall. reflexivity.
Qed.

Lemma dict_get_In (kvs : list (string * json)) (k : string) :
  In k (dict_keys kvs) <-> dict_get kvs k <> None.
Proof.
  unfold dict_keys. induction kvs as [|[k' v] r IH]; simpl.
  - split; [contradiction|]. intros H; apply H; reflexivity.
  - destruct (String.eqb k k') eqn:E.
    + apply String.eqb_eq in E. subst. split; [discriminate|auto].
    + apply String.eqb_neq in E. rewrite <- IH. split.
      * intros [H|H]; [congruence|exact H].
      * intros H; right; exact H.
Qed.

(** The two copies of [resolve_target] behave identically. *)
Lemma resolve_target_copies (config_path : string) (cfg : config_file) (name : string) :
  CreateProject.resolve_target config_path cfg name
  = NotionClient.resolve_target config_path cfg name.
Proof.
  unfold CreateProject.resolve_target, NotionClient.resolve_target,
    NotionClient.load_config.
  destruct (looks_raw name), cfg; reflexivity.
Qed.

(** ** C1 *)

(** C1: a string whose dash-stripped form is exactly 32 lowercase hex
    digits is returned unchanged, dashes kept, by both copies of
    [resolve_target], whatever the configuration document is: absent,
    malformed, or a table that even lists the string as a friendly name. *)
Theorem resolve_raw_identifier (config_path : string) (cfg : config_file) (s : string) :
  String.length (strip_dashes s) = 32 ->
  Forall lower_hex_char (list_ascii_of_string (strip_dashes s)) ->
  NotionClient.resolve_target config_path cfg s = Return (JStr s) /\
  CreateProject.resolve_target config_path cfg s = Return (JStr s).
Proof.
  intros Hlen Hhex.
  assert (Hraw : looks_raw s = true) by (apply looks_raw_iff; auto).
  unfold NotionClient.resolve_target, CreateProject.resolve_target.
  rewrite Hraw. split; reflexivity.
Qed.

Lemma resolve_raw_identifier_witness :
  let s := "a1b2c3d4-e5f6-7890-abcd-ef1234567890" in
  let cfg := CfgParsed (JObj [("targets", JObj [(s, JObj [("id", JStr "other")])])]) in
  NotionClient.resolve_target "notion-config.json" cfg s = Return (JStr s) /\
  CreateProject.resolve_target "notion-config.json" cfg s = Return (JStr s).
Proof.
  apply resolve_raw_identifier.
  - vm_compute. reflexivity.
  - apply all_hex_Forall. vm_compute. reflexivity.
Defined.

(** ** C3 *)

(** C3: a name that is not a raw identifier and is a key of the
    [targets] mapping resolves, in both copies, to the [id] field of its
    entry. *)
Theorem resolve_friendly_name (config_path : string) (name : string)
  (kvs tkvs ekvs : list (string * json)) (id : json) :
  looks_raw name = false ->
  dict_get kvs "targets" = Some (JObj tkvs) ->
  dict_get tkvs name = Some (JObj ekvs) ->
  dict_get ekvs "id" = Some id ->
  NotionClient.resolve_target config_path (CfgParsed (JObj kvs)) name = Return id /\
  CreateProject.resolve_target config_path (CfgParsed (JObj kvs)) name = Return id.
Proof.
  intros Hraw Ht Hn Hid.
  rewrite resolve_target_copies.
  unfold NotionClient.resolve_target; rewrite Hraw; simpl.
  rewrite Ht; simpl; rewrite Hn; simpl; rewrite Hid.
  split; reflexivity.
Qed.

Lemma resolve_friendly_name_witness :
  NotionClient.resolve_target "notion-config.json" sample_config "project-db" = Return (JStr "xyz") /\
  CreateProject.resolve_target "notion-config.json" sample_config "project-db" = Return (JStr "xyz").
Proof.
  apply (resolve_friendly_name "notion-config.json" "project-db"
           [("targets", JObj [("project-db", JObj [("id", JStr "xyz")])])]
           [("project-db", JObj [("id", JStr "xyz")])]
           [("id", JStr "xyz")] (JStr "xyz")); reflexivity.
Defined.

(** ** C5 *)

(** C5: a name that is neither a raw identifier nor a key of the
    [targets] mapping makes both copies print the not-found line and an
    "Available targets" line, then exit with status 1 (the
    [UnknownTargetError] of the spec); the names listed are exactly the
    keys of [targets], none when it is empty. *)
Theorem resolve_unknown_target (config_path : string) (name : string)
  (kvs tkvs : list (string * json)) :
  looks_raw name = false ->
  dict_get kvs "targets" = Some (JObj tkvs) ->
  dict_get tkvs name = None ->
  exists names,
    NotionClient.resolve_target config_path (CfgParsed (JObj kvs)) name
    = Exit 1 [not_found_line name; "Available targets: " ++ String.concat ", " names] /\
    CreateProject.resolve_target config_path (CfgParsed (JObj kvs)) name
    = Exit 1 [not_found_line name; "Available targets: " ++ String.concat ", " names] /\
    (forall k, In k names <-> dict_get tkvs k <> None) /\
    (tkvs = [] -> names = []).
Proof.
  intros Hraw Ht Hn.
  exists (dict_keys tkvs).
  rewrite resolve_target_copies.
  unfold NotionClient.resolve_target; rewrite Hraw; simpl.
  rewrite Ht; simpl; rewrite Hn.
  split; [reflexivity|]. split; [reflexivity|]. split.
  - intros k. apply dict_get_In.
  - intros ->. reflexivity.
Qed.

Lemma resolve_unknown_target_witness :
  exists names,
    NotionClient.resolve_target "notion-config.json"
      (CfgParsed (JObj [("targets", JObj [])])) "missing-target"
    = Exit 1 [not_found_line "missing-target";
              "Available targets: " ++ String.concat ", " names] /\
    CreateProject.resolve_target "notion-config.json"
      (CfgParsed (JObj [("targets", JObj [])])) "missing-target"
    = Exit 1 [not_found_line "missing-target";
              "Available targets: " ++ String.concat ", " names] /\
    (forall k, In k names <-> dict_get [] k <> None) /\
    ([] = @nil (string * json) -> names = []).
Proof.
  apply (resolve_unknown_target "notion-config.json" "missing-target"
           [("targets", JObj [])] []); reflexivity.
Defined.

(** ** C8 *)

(** C8: a name that is not a raw identifier, with the configuration
    document absent, makes both copies print "Config not found" and exit
    with status 1 (the [ConfigNotFoundError] of the spec), whatever the
    name is. *)
Theorem resolve_config_absent (config_path : string) (name : string) :
  looks_raw name = false ->
  NotionClient.resolve_target config_path CfgAbsent name
  = Exit 1 ["Error: Config not found at " ++ config_path] /\
  CreateProject.resolve_target config_path CfgAbsent name
  = Exit 1 ["Error: Config not found at " ++ config_path].
Proof.
  intros Hraw.
  unfold NotionClient.resolve_target, CreateProject.resolve_target.
  rewrite Hraw. split; reflexivity.
Qed.

Lemma resolve_config_absent_witness :
  NotionClient.resolve_target "/repo/notion-config.json" CfgAbsent "project-db"
  = Exit 1 ["Error: Config not found at /repo/notion-config.json"] /\
  CreateProject.resolve_target "/repo/notion-config.json" CfgAbsent "project-db"
  = Exit 1 ["Error: Config not found at /repo/notion-config.json"].
Proof.
  apply resolve_config_absent. reflexivity.
Defined.

(** ** C10 *)

(** C10: a parsed configuration object without a [targets] key acts as
    an empty table: every name that is not a raw identifier ends in the
    unknown-target exit, listing no names. *)
Theorem resolve_no_targets_key (config_path : string) (name : string)
  (kvs : list (string * json)) :
  looks_raw name = false ->
  dict_get kvs "targets" = None ->
  NotionClient.resolve_target config_path (CfgParsed (JObj kvs)) name
  = Exit 1 [not_found_line name; "Available targets: "] /\
  CreateProject.resolve_target config_path (CfgParsed (JObj kvs)) name
  = Exit 1 [not_found_line name; "Available targets: "].
Proof.
  intros Hraw Ht.
  rewrite resolve_target_copies.
  unfold NotionClient.resolve_target; rewrite Hraw; simpl.
  rewrite Ht. split; reflexivity.
Qed.

Lemma resolve_no_targets_key_witness :
  NotionClient.resolve_target "notion-config.json"
    (CfgParsed (JObj [("version", JNum 1)])) "project-db"
  = Exit 1 [not_found_line "project-db"; "Available targets: "] /\
  CreateProject.resolve_target "notion-config.json"
    (CfgParsed (JObj [("version", JNum 1)])) "project-db"
  = Exit 1 [not_found_line "project-db"; "Available targets: "].
Proof.
  apply resolve_no_targets_key; reflexivity.
Defined.

(** ** Lemmas on [str.replace] *)

Lemma replace_from_drop (old new : string) (s : string) :
  forall k, replace_from old new k s = replace_from old new 0 (sdrop k s).
Proof.
  induction s as [|c rest IH]; intros [|k]; try reflexivity.
  cbn [replace_from sdrop]. apply IH.
Qed.

Lemma sdrop_app (u t : string) : sdrop (String.length u) (u ++ t) = t.
Proof. induction u; simpl; auto. Qed.

Lemma sdrop_self (u : string) : sdrop (String.length u) u = EmptyString.
Proof. induction u; simpl; auto. Qed.

Lemma prefix_app_self (u t : string) : String.prefix u (u ++ t) = true.
Proof.
  induction u as [|a u IH]; [destruct t; reflexivity|].
  cbn -[Ascii.ascii_dec]. destruct (Ascii.ascii_dec a a) as [_|n]; [exact IH|].
  exfalso; apply n; reflexivity.
Qed.

Lemma prefix_split (u s : string) :
  String.prefix u s = true -> exists t, s = u ++ t.
Proof.
  revert s. induction u as [|a u IH]; intros s H.
  - exists s. reflexivity.
  - destruct s as [|c s]; [discriminate|].
    cbn -[Ascii.ascii_dec] in H.
    destruct (Ascii.ascii_dec a c) as [->|n]; [|discriminate].
    destruct (IH s H) as [t ->]. exists t. reflexivity.
Qed.

Lemma string_app_nil (s : string) : s ++ EmptyString = s.
Proof. induction s; simpl; congruence. Qed.

Lemma string_app_length (u t : string) :
  String.length (u ++ t) = String.length u + String.length t.
Proof. induction u; simpl; auto. Qed.

(** One call of [replace_from] performs exactly the left-to-right pass. *)
Lemma replace_from_replaced (old new : string) :
  old <> EmptyString ->
  forall s, replaced old new s (replace_from old new 0 s).
Proof.
  intros Hold.
  assert (Hn : forall n s, String.length s <= n ->
                           replaced old new s (replace_from old new 0 s)).
  { induction n as [|n IHn]; intros s Hlen.
    - destruct s; [constructor | simpl in Hlen; lia].
    - destruct s as [|c rest]; [constructor|].
      cbn [replace_from].
      destruct (String.prefix old (String c rest)) eqn:Hp.
      + destruct (prefix_split _ _ Hp) as [t Ht].
        destruct old as [|a old']; [congruence|].
        simpl in Ht. injection Ht as <- ->.
        replace (String.length (String c old') - 1) with (String.length old')
          by (simpl; lia).
        rewrite replace_from_drop, sdrop_app.
        change (String c (old' ++ t)) with (String c old' ++ t).
        apply rep_hit. apply IHn.
        simpl in Hlen. rewrite string_app_length in Hlen. lia.
      + apply rep_miss; [exact Hp|]. apply IHn. simpl in Hlen. lia. }
  intros s. apply (Hn (String.length s)). lia.
Qed.

Lemma token_nonempty (key : string) : token key <> EmptyString.
Proof. unfold token. simpl. discriminate. Qed.

Lemma str_replace_token (key value s : string) :
  str_replace (token key) value s = replace_from (token key) value 0 s.
Proof. reflexivity. Qed.

Lemma subst_str_seq (r : list (string * string)) (s : string) :
  seq_replaced r s (subst_str r s).
Proof.
  revert s. induction r as [|[key value] r IH]; intros s; cbn [subst_str].
  - constructor.
  - econstructor; [|apply IH].
    rewrite str_replace_token. apply replace_from_replaced, token_nonempty.
Qed.

(** A string without any occurrence of [old] is left as it is. *)
Lemma replace_from_absent (old new : string) (s : string) :
  contains old s = false -> replace_from old new 0 s = s.
Proof.
  induction s as [|c rest IH]; intros H; [reflexivity|].
  cbn [contains] in H. apply Bool.orb_false_iff in H as [Hp Hr].
  cbn [replace_from]. rewrite Hp, IH by exact Hr. reflexivity.
Qed.

Lemma replace_from_self (old new : string) :
  old <> EmptyString -> replace_from old new 0 old = new.
Proof.
  intros Hold. destruct old as [|a old']; [congruence|].
  cbn [replace_from].
  rewrite <- (string_app_nil (String a old')) at 2.
  rewrite prefix_app_self.
  replace (String.length (String a old') - 1) with (String.length old') by (simpl; lia).
  rewrite replace_from_drop.
  rewrite sdrop_self. apply string_app_nil.
Qed.

(** ** C2 *)

(** C2: [replace_placeholders] keeps the tree shape, every mapping key
    and every non-string leaf, and turns each string leaf into the result
    of one left-to-right replace-all pass per key of the replacement set,
    in its iteration order; it never fails, and a string leaf holding no
    token of a key of the set comes out unchanged. *)
Theorem replace_placeholders_spec (r : list (string * string)) (doc : json) :
  subst_rel r doc (replace_placeholders doc r) /\
  (forall s, Forall (fun kv => contains (token (fst kv)) s = false) r ->
             replace_placeholders (JStr s) r = JStr s).
Proof.
  split.
  - induction doc using json_ind'; simpl; try constructor.
    + apply subst_str_seq.
    + induction H as [|x xs Hx Hxs IH]; simpl; constructor; auto.
    + induction H as [|kv kvs Hkv Hkvs IH]; simpl; constructor; auto.
  - intros s Hs. simpl. f_equal.
    induction Hs as [|[key value] r Hk Hr IH]; [reflexivity|].
    cbn [subst_str fst] in *.
    rewrite str_replace_token, replace_from_absent by exact Hk.
    exact IH.
Qed.

(** ** C6 *)

(** C6: with an empty replacement set, [replace_placeholders] returns
    its argument unchanged. *)
Theorem replace_placeholders_empty (doc : json) :
  replace_placeholders doc [] = doc.
Proof.
  induction doc using json_ind'; simpl; try reflexivity.
  - f_equal. induction H as [|x xs Hx Hxs IH]; simpl; congruence.
  - f_equal. induction H as [|[k v] kvs Hkv Hkvs IH]; simpl in *; congruence.
Qed.

(** ** C9 *)

(** C9: keys are applied one after another to the accumulated string, so
    a token inserted by an earlier key's value is replaced by a later key;
    with [PROJECT_NAME] set to ["{{DATE}}"] the result is the date, where
    a simultaneous substitution would leave ["{{DATE}}"]. *)
Theorem replace_placeholders_sequential :
  (forall key value r s,
      subst_str ((key, value) :: r) s = subst_str r (str_replace (token key) value s)) /\
  (forall key1 key2 value2,
      subst_str [(key1, token key2); (key2, value2)] (token key1) = value2) /\
  (let r := [("PROJECT_NAME", "{{DATE}}"); ("DATE", "2026-10-14")] in
   replace_placeholders (JStr "{{PROJECT_NAME}}") r = JStr "2026-10-14" /\
   simultaneous_subst r "{{PROJECT_NAME}}" = "{{DATE}}").
Proof.
  split; [reflexivity|]. split.
  - intros key1 key2 value2. cbn [subst_str].
    rewrite !str_replace_token, !replace_from_self by apply token_nonempty.
    reflexivity.
  - split; vm_compute; reflexivity.
Qed.

(** ** Lemmas on dict updates *)

Lemma dict_get_set_same (kvs : list (string * json)) (k : string) (v : json) :
  dict_get (dict_set kvs k v) k = Some v.
Proof.
  induction kvs as [|[k' v'] r IH]; simpl.
  - rewrite String.eqb_refl. reflexivity.
  - destruct (String.eqb k k') eqn:E; simpl.
    + apply String.eqb_eq in E; subst. rewrite String.eqb_refl. reflexivity.
    + rewrite E. exact IH.
Qed.

Lemma dict_get_set_other (kvs : list (string * json)) (k k2 : string) (v : json) :
  k2 <> k -> dict_get (dict_set kvs k v) k2 = dict_get kvs k2.
Proof.
  intros Hne. induction kvs as [|[k' v'] r IH]; simpl.
  - apply String.eqb_neq in Hne. rewrite Hne. reflexivity.
  - destruct (String.eqb k k') eqn:E; simpl.
    + apply String.eqb_eq in E; subst.
      apply String.eqb_neq in Hne. rewrite Hne. reflexivity.
    + rewrite IH. reflexivity.
Qed.

Lemma dict_get_pop_same (kvs : list (string * json)) (k : string) :
  dict_get (dict_pop kvs k) k = None.
Proof.
  unfold dict_pop. induction kvs as [|[k' v'] r IH]; simpl; [reflexivity|].
  destruct (String.eqb k k') eqn:E; simpl; [exact IH|].
  rewrite E. exact IH.
Qed.

Lemma dict_get_pop_other (kvs : list (string * json)) (k k2 : string) :
  k2 <> k -> dict_get (dict_pop kvs k) k2 = dict_get kvs k2.
Proof.
  intros Hne. unfold dict_pop.
  induction kvs as [|[k' v'] r IH]; simpl; [reflexivity|].
  destruct (String.eqb k k') eqn:E; simpl.
  - apply String.eqb_eq in E; subst.
    apply String.eqb_neq in Hne. rewrite Hne. exact IH.
  - rewrite IH. reflexivity.
Qed.

(** ** C7 *)

(** C7 as stated: every page-creation entry point sets [icon] on the
    body it forwards.  [cmd_create_page] of notion_client.py, on a loaded
    template without an [icon] field, forwards a body without one. *)
Lemma cmd_create_page_sets_no_icon :
  let templates := fun name : string =>
    if String.eqb name "project-page"
    then Some (JObj [("properties", JObj [])]) else None in
  CmdCreatePage.cmd_create_page_body "templates" templates "pid"
    (Some "project-page") None
  = Return (JObj [("properties", JObj []); ("parent", parent_ref "pid")]) /\
  dict_get [("properties", JObj []); ("parent", parent_ref "pid")] "icon" = None.
Proof. split; reflexivity. Qed.

(** C7, amended: [create_project_page], the only caller of the template
    engine, forwards the substituted template with [parent] set to the
    parent reference, [icon] set to the emoji descriptor, [object]
    removed and every other top-level field unchanged, whatever the
    template name (an empty one included).  [cmd_create_page]
    (notion_client.py) does no substitution and adds no [icon]: given a
    non-empty template name (an empty one selects the default body) it
    forwards the loaded template with [parent] set and every top-level
    field other than [parent] and [object] unchanged. *)
Theorem page_creation_bodies (templates_dir : string)
  (templates : string -> option json) (parent_id project_name today : string)
  (template_name icon : string) (tkvs body : list (string * json)) :
  templates template_name = Some (JObj tkvs) ->
  replace_placeholders (JObj tkvs) [("PROJECT_NAME", project_name); ("DATE", today)]
  = JObj body ->
  (exists body',
     CreateProjectPage.create_project_page_body templates_dir templates parent_id
       project_name today template_name icon = Return (JObj body') /\
     dict_get body' "parent" = Some (parent_ref parent_id) /\
     dict_get body' "icon" = Some (CreateProjectPage.icon_ref icon) /\
     dict_get body' "object" = None /\
     (forall k, k <> "parent" -> k <> "icon" -> k <> "object" ->
                dict_get body' k = dict_get body k)) /\
  (template_name <> "" -> forall title, exists body',
     CmdCreatePage.cmd_create_page_body templates_dir templates parent_id
       (Some template_name) title = Return (JObj body') /\
     dict_get body' "parent" = Some (parent_ref parent_id) /\
     (forall k, k <> "parent" -> k <> "object" -> dict_get body' k = dict_get tkvs k)).
Proof.
  intros Ht Hsub. split.
  - unfold CreateProjectPage.create_project_page_body, load_template.
    rewrite Ht. cbn [bind]. cbv zeta. rewrite Hsub.
    eexists. split; [reflexivity|].
    split; [|split; [|split]].
    + rewrite dict_get_pop_other by discriminate.
      rewrite dict_get_set_other by discriminate. apply dict_get_set_same.
    + rewrite dict_get_pop_other by discriminate. apply dict_get_set_same.
    + apply dict_get_pop_same.
    + intros k H1 H2 H3.
      rewrite dict_get_pop_other, !dict_get_set_other by assumption. reflexivity.
  - intros Hname title.
    unfold CmdCreatePage.cmd_create_page_body, load_template.
    apply String.eqb_neq in Hname. rewrite Hname, Ht. simpl.
    eexists. split; [reflexivity|]. split.
    + apply dict_get_set_same.
    + intros k H1 H2. apply dict_get_set_other. exact H1.
Qed.

Lemma page_creation_bodies_witness :
  let tpl := JObj [("object", JStr "page");
                   ("properties", JObj [("title", JStr "{{PROJECT_NAME}}")])] in
  let templates := fun name : string =>
    if String.eqb name "project-page" then Some tpl else None in
  (exists body',
     CreateProjectPage.create_project_page_body "templates" templates "pid"
       "Apollo" "2026-10-14" "project-page" "r" = Return (JObj body') /\
     dict_get body' "parent" = Some (parent_ref "pid") /\
     dict_get body' "icon" = Some (CreateProjectPage.icon_ref "r") /\
     dict_get body' "object" = None /\
     (forall k, k <> "parent" -> k <> "icon" -> k <> "object" ->
                dict_get body' k
                = dict_get [("object", JStr "page");
                            ("properties", JObj [("title", JStr "Apollo")])] k)) /\
  (forall title, exists body',
     CmdCreatePage.cmd_create_page_body "templates" templates "pid"
       (Some "project-page") title = Return (JObj body') /\
     dict_get body' "parent" = Some (parent_ref "pid") /\
     (forall k, k <> "parent" -> k <> "object" ->
                dict_get body' k
                = dict_get [("object", JStr "page");
                            ("properties", JObj [("title", JStr "{{PROJECT_NAME}}")])] k)).
Proof.
  intros tpl templates.
  destruct (page_creation_bodies "templates" templates "pid" "Apollo" "2026-10-14"
              "project-page" "r" [("object", JStr "page");
                                  ("properties", JObj [("title", JStr "{{PROJECT_NAME}}")])]
              [("object", JStr "page"); ("properties", JObj [("title", JStr "Apollo")])]
              eq_refl eq_refl) as [H1 H2].
  split; [exact H1|]. apply H2. discriminate.
Defined.

(** ** Lemmas on the store model *)

Module StoreFacts.
Import Store.

Lemma map_st_frame {A B : Type} (f : A -> heap -> option B * heap) (xs : list A) :
  (forall x h, In x xs -> exists ext, snd (f x h) = (h ++ ext)%list) ->
  forall h, exists ext, snd (map_st f xs h) = (h ++ ext)%list.
Proof.
  intros Hf. induction xs as [|x xs IH]; intros h; simpl.
  - exists []. rewrite app_nil_r. reflexivity.
  - destruct (Hf x h (or_introl eq_refl)) as [e1 He1].
    destruct (f x h) as [[y|] h1]; simpl in He1; subst h1.
    + destruct (IH (fun x' h' Hin => Hf x' h' (or_intror Hin)) (h ++ e1)%list)
        as [e2 He2].
      destruct (map_st f xs (h ++ e1)%list) as [[ys|] h2]; simpl in *; subst h2;
        exists (e1 ++ e2)%list; rewrite app_assoc; reflexivity.
    + exists e1. reflexivity.
Qed.

Lemma replace_placeholders_frame (fuel : nat) :
  forall obj r h, exists ext,
    snd (replace_placeholders fuel obj r h) = (h ++ ext)%list.
Proof.
  induction fuel as [|fuel IH]; intros obj r h.
  - exists []. rewrite app_nil_r. reflexivity.
  - destruct obj as [| | | |l]; cbn [replace_placeholders snd];
      try (exists []; rewrite app_nil_r; reflexivity).
    destruct (nth_error h l) as [[items|kvs]|];
      [| |exists []; rewrite app_nil_r; reflexivity].
    + destruct (map_st_frame (fun item => replace_placeholders fuel item r) items
                  (fun x h0 _ => IH x r h0) h) as [e He].
      destruct (map_st _ items h) as [[items'|] h1]; simpl in *; subst h1.
      * exists (e ++ [CList items'])%list. rewrite app_assoc. reflexivity.
      * exists e. reflexivity.
    + assert (Hkv : forall kv h0, In kv kvs -> exists ext,
                 snd (match replace_placeholders fuel (snd kv) r h0 with
                      | (Some v', h1) => (Some (fst kv, v'), h1)
                      | (None, h1) => (None, h1)
                      end) = (h0 ++ ext)%list).
      { intros kv h0 _. destruct (IH (snd kv) r h0) as [e He].
        destruct (replace_placeholders fuel (snd kv) r h0) as [[v'|] h1];
          simpl in *; subst h1; exists e; reflexivity. }
      destruct (map_st_frame _ kvs Hkv h) as [e He].
      destruct (map_st _ kvs h) as [[kvs'|] h1]; simpl in *; subst h1.
      * exists (e ++ [CDict kvs'])%list. rewrite app_assoc. reflexivity.
      * exists e. reflexivity.
Qed.

Lemma nth_error_extend (h ext : heap) (l : nat) (c : cell) :
  nth_error h l = Some c -> nth_error (h ++ ext)%list l = Some c.
Proof.
  intros H. rewrite nth_error_app1; [exact H|].
  apply nth_error_Some. congruence.
Qed.

Lemma to_json_extend (n : nat) :
  forall h ext v j, to_json n h v = Some j -> to_json n (h ++ ext)%list v = Some j.
Proof.
  induction n as [|n IH]; intros h ext v j H; [discriminate|].
  destruct v as [| | | |l]; cbn [to_json] in *; try exact H.
  destruct (nth_error h l) as [c|] eqn:Hl; [|discriminate].
  rewrite (nth_error_extend h ext l c Hl).
  destruct c as [items|kvs].
  - destruct (fold_right _ (Some []) items) as [js|] eqn:Hf; [|discriminate].
    match goal with |- context [fold_right ?F (Some []) items] =>
      assert (Hg : fold_right F (Some []) items = Some js) end;
      [|rewrite Hg; exact H].
    clear H Hl. revert js Hf. induction items as [|it items IHi]; intros js Hf;
      [exact Hf|].
    simpl in *. destruct (to_json n h it) as [j1|] eqn:Hj; [|discriminate].
    rewrite (IH h ext it j1 Hj).
    destruct (fold_right _ (Some []) items) as [js1|]; [|discriminate].
    rewrite (IHi js1 eq_refl). exact Hf.
  - destruct (fold_right _ (Some []) kvs) as [js|] eqn:Hf; [|discriminate].
    match goal with |- context [fold_right ?F (Some []) kvs] =>
      assert (Hg : fold_right F (Some []) kvs = Some js) end;
      [|rewrite Hg; exact H].
    clear H Hl. revert js Hf. induction kvs as [|kv kvs IHi]; intros js Hf;
      [exact Hf|].
    simpl in *. destruct (to_json n h (snd kv)) as [j1|] eqn:Hj; [|discriminate].
    rewrite (IH h ext (snd kv) j1 Hj).
    destruct (fold_right _ (Some []) kvs) as [js1|]; [|discriminate].
    rewrite (IHi js1 eq_refl). exact Hf.
Qed.

End StoreFacts.

(** ** C4 *)

(** C4: [replace_placeholders] never mutates its argument.  Whatever the
    heap (shared or cyclic containers included) and whether the call
    returns or raises, every heap cell that existed before the call holds
    the same contents afterwards, so the document reachable from the
    argument reads back as the same tree. *)
Theorem replace_placeholders_no_mutation (fuel : nat) (obj : Store.pyval)
  (replacements : list (string * string)) (h : Store.heap) :
  let h' := snd (Store.replace_placeholders fuel obj replacements h) in
  (forall l c, nth_error h l = Some c -> nth_error h' l = Some c) /\
  (forall n j, Store.to_json n h obj = Some j -> Store.to_json n h' obj = Some j).
Proof.
  destruct (StoreFacts.replace_placeholders_frame fuel obj replacements h) as [ext He].
  cbv zeta. rewrite He. split.
  - intros l c. apply StoreFacts.nth_error_extend.
  - intros n j. apply StoreFacts.to_json_extend.
Qed.

Lemma replace_placeholders_no_mutation_witness :
  let h' := snd (Store.replace_placeholders 5 (Store.PRef 1) [("X", "Apollo")]
                   Store.sample_heap) in
  nth_error h' 0 = Some (Store.CList [Store.PStr "{{X}}"; Store.PInt 1]) /\
  Store.to_json 5 h' (Store.PRef 1)
  = Some (JObj [("a", JArr [JStr "{{X}}"; JNum 1])]).
Proof.
  destruct (replace_placeholders_no_mutation 5 (Store.PRef 1) [("X", "Apollo")]
              Store.sample_heap) as [H1 H2].
  split; [apply H1 | apply H2]; vm_compute; reflexivity.
Defined.

(* ================================================================== *)
(** * Further properties of the scripts *)

(** ** [get_client] and the subcommands *)

Lemma get_client_return (token : option string) (a : string) :
  get_client token = Return a <-> token = Some a /\ a <> "".
Proof.
  unfold get_client. destruct token as [t|].
  - destruct (String.eqb t "") eqn:E.
    + apply String.eqb_eq in E. subst. split; [discriminate|]. intros [H1 H2]. congruence.
    + apply String.eqb_neq in E. split.
      * intros H. injection H as <-. auto.
      * intros [H1 H2]. injection H1 as ->. reflexivity.
  - split; [discriminate|]. intros [H _]. discriminate.
Qed.

(** Unfolds one bind in hypothesis [H], case-splitting the scrutinee. *)
Ltac split_binds H :=
  repeat (cbn [bind] in H; cbv zeta in H;
          match type of H with
          | bind ?m _ = _ => destruct m eqn:?; try discriminate H
          | match ?x with _ => _ end = _ => destruct x eqn:?; try discriminate H
          end); cbn [bind] in H; cbv zeta in H.

(** [get_client] of both scripts exits with status 1 and the
    "NOTION_API_TOKEN is not set" message exactly when the variable is
    unset or empty, and otherwise returns a client for the token. *)
Lemma get_client_exit_iff (token : option string) :
  (get_client token = Exit 1 [token_error] <-> token = None \/ token = Some "") /\
  (forall t, token = Some t -> t <> "" -> get_client token = Return t).
Proof.
  split.
  - unfold get_client. destruct token as [t|].
    + destruct (String.eqb t "") eqn:E.
      * apply String.eqb_eq in E. subst. split; [intros; right; reflexivity|reflexivity].
      * apply String.eqb_neq in E. split; [discriminate|].
        intros [H|H]; [discriminate|]. injection H as ->. contradiction.
    + split; [intros; left; reflexivity|reflexivity].
  - intros t -> Ht. apply get_client_return. auto.
Qed.

(** Every subcommand of notion_client.py, and [main] of
    create_project.py, stops with the token error when the token is unset
    or empty, before reading the configuration, the templates or any
    argument, and without calling the API or printing to stdout. *)
Theorem token_checked_first (json_loads : string -> outcome json) (e : env)
  (api : request -> outcome json) (py_str : json -> string) :
  env_token e = None \/ env_token e = Some "" ->
  (forall c, Cli.run_command json_loads e c = Exit 1 [token_error]) /\
  (forall today name parent template icon,
     CreateProjectMain.main api py_str e today name parent template icon
     = mk_trace [] [] (Exit 1 [token_error])).
Proof.
  intros Htok.
  assert (H : get_client (env_token e) = Exit 1 [token_error])
    by (apply get_client_exit_iff; exact Htok).
  split.
  - intros []; cbn [Cli.run_command];
      unfold Cli.cmd_create_page, Cli.cmd_create_db, Cli.cmd_update_page,
        Cli.cmd_query_db, Cli.cmd_append_blocks, Cli.cmd_get_page;
      rewrite H; reflexivity.
  - intros. unfold CreateProjectMain.main. rewrite H. reflexivity.
Qed.

Lemma token_checked_first_witness :
  let e := mk_env None "notion-config.json" CfgAbsent "templates" (fun _ => None) in
  (forall c, Cli.run_command Cli.toy_loads e c = Exit 1 [token_error]) /\
  (forall today name parent template icon,
     CreateProjectMain.main (fun _ => Return JNull) (fun _ => "") e today name parent
       template icon = mk_trace [] [] (Exit 1 [token_error])).
Proof.
  intros e. apply token_checked_first. left. reflexivity.
Defined.

(** When resolving the target fails (a missing configuration, an unknown
    name, a malformed table), every subcommand fails in the same way: the
    same exit status and stderr, or the same exception, and no API call. *)
Theorem resolve_failure_propagates (json_loads : string -> outcome json) (e : env)
  (c : command) (a : string) :
  get_client (env_token e) = Return a ->
  (forall code lines, Cli.resolve e (command_target c) = Exit code lines ->
                      Cli.run_command json_loads e c = Exit code lines) /\
  (forall exn lines, Cli.resolve e (command_target c) = Raise exn lines ->
                     Cli.run_command json_loads e c = Raise exn lines).
Proof.
  intros Htok. split; intros x y Hres;
    destruct c; cbn [Cli.run_command command_target] in *;
    unfold Cli.cmd_create_page, Cli.cmd_create_db, Cli.cmd_update_page,
      Cli.cmd_query_db, Cli.cmd_append_blocks, Cli.cmd_get_page;
    rewrite Htok; cbn [bind]; rewrite Hres; reflexivity.
Qed.

Lemma resolve_failure_propagates_witness :
  let e := mk_env (Some "secret") "notion-config.json" (CfgParsed (JObj [("targets", JObj [])]))
             "templates" (fun _ => None) in
  (forall code lines, Cli.resolve e "missing" = Exit code lines ->
     Cli.run_command Cli.toy_loads e (GetPage "missing") = Exit code lines) /\
  (forall exn lines, Cli.resolve e "missing" = Raise exn lines ->
     Cli.run_command Cli.toy_loads e (GetPage "missing") = Raise exn lines).
Proof.
  intros e. apply (resolve_failure_propagates Cli.toy_loads e (GetPage "missing") "secret").
  reflexivity.
Defined.

(** Every API call a subcommand makes is addressed to what
    [resolve_target] returned for its [--target] and is made with the
    token of the environment. *)
Theorem call_addressed_to_resolved_target (json_loads : string -> outcome json)
  (e : env) (c : command) (req : request) :
  Cli.run_command json_loads e c = Return req ->
  exists v, Cli.resolve e (command_target c) = Return v /\
            Cli.call_target (req_call req) = Some v /\
            env_token e = Some (req_auth req).
Proof.
  intros H.
  destruct c; cbn [Cli.run_command command_target] in *;
    unfold Cli.cmd_create_page, Cli.cmd_create_db, Cli.cmd_update_page,
      Cli.cmd_query_db, Cli.cmd_append_blocks, Cli.cmd_get_page in H;
    split_binds H;
    repeat match goal with
    | Hq : (match truthy _ with _ => _ end) = Return _ |- _ => split_binds Hq
    | Hq : Return _ = Return _ |- _ => injection Hq as Hq; subst
    end;
    match goal with
    | Hc : get_client (env_token e) = Return ?a |- _ =>
        apply get_client_return in Hc; destruct Hc as [Hc _]
    end;
    eexists; (split; [reflexivity|]); cbn [Cli.call_target req_call req_auth];
    (split; [|assumption]);
    repeat first [ rewrite dict_get_pop_other by discriminate
                 | rewrite dict_get_set_other by discriminate
                 | rewrite dict_get_set_same ]; reflexivity.
Qed.

Lemma call_addressed_to_resolved_target_witness :
  exists v, Cli.resolve (mk_env (Some "secret") "cfg" sample_config "templates" (fun _ => None))
              "project-db" = Return v /\
            Cli.call_target (PagesRetrieve (JStr "xyz")) = Some v /\
            Some "secret" = Some "secret".
Proof.
  apply (call_addressed_to_resolved_target Cli.toy_loads
           (mk_env (Some "secret") "cfg" sample_config "templates" (fun _ => None))
           (GetPage "project-db") (mk_request "secret" (PagesRetrieve (JStr "xyz")))).
  reflexivity.
Defined.

(** [query-db] always passes [database_id]; each of [--filter] and
    [--sorts] is skipped on its own when absent or empty, and otherwise
    added, parsed with [json.loads], after what precedes it: every one of
    the nine shapes (absent, empty, given) of the two options. *)
Theorem query_db_kwargs (json_loads : string -> outcome json) (e : env)
  (target a : string) (id : json) (filter sorts : option string)
  (fkv skv : list (string * json)) :
  get_client (env_token e) = Return a ->
  Cli.resolve e target = Return id ->
  (truthy filter = None /\ fkv = [] \/
   exists f fj, truthy filter = Some f /\ json_loads f = Return fj /\ fkv = [("filter", fj)]) ->
  (truthy sorts = None /\ skv = [] \/
   exists s sj, truthy sorts = Some s /\ json_loads s = Return sj /\ skv = [("sorts", sj)]) ->
  (truthy None = None /\ truthy (Some "") = None /\
   forall t, t <> "" -> @truthy (Some t) = Some t) /\
  Cli.cmd_query_db json_loads e target filter sorts
  = Return (mk_request a (DatabasesQuery (("database_id", id) :: fkv ++ skv)%list)).
Proof.
  intros Htok Hres Hf Hs. split.
  - split; [reflexivity|split; [reflexivity|]].
    intros t Ht. cbn. apply String.eqb_neq in Ht. rewrite Ht. reflexivity.
  - unfold Cli.cmd_query_db. rewrite Htok; cbn [bind]; rewrite Hres; cbn [bind].
    destruct Hf as [[Hf ->] | [f [fj [Hf [Hl ->]]]]]; rewrite Hf; cbn [bind];
      try (rewrite Hl; cbn [bind]);
    destruct Hs as [[Hs ->] | [s [sj [Hs [Hl' ->]]]]]; rewrite Hs; cbn [bind];
      try (rewrite Hl'; cbn [bind]); reflexivity.
Qed.

Lemma query_db_kwargs_witness :
  let e := mk_env (Some "secret") "cfg" sample_config "templates" (fun _ => None) in
  Cli.cmd_query_db Cli.toy_loads e "project-db" (Some "") (Some "[]")
  = Return (mk_request "secret"
              (DatabasesQuery [("database_id", JStr "xyz"); ("sorts", JArr [])])) /\
  Cli.cmd_query_db Cli.toy_loads e "project-db" (Some "{}") (Some "")
  = Return (mk_request "secret"
              (DatabasesQuery [("database_id", JStr "xyz"); ("filter", JObj [])])).
Proof.
  intros e. split.
  - apply (query_db_kwargs Cli.toy_loads e "project-db" "secret" (JStr "xyz")
             (Some "") (Some "[]") [] [("sorts", JArr [])]); try reflexivity.
    + left. split; reflexivity.
    + right. exists "[]", (JArr []). repeat split.
  - apply (query_db_kwargs Cli.toy_loads e "project-db" "secret" (JStr "xyz")
             (Some "{}") (Some "") [("filter", JObj [])] []); try reflexivity.
    + right. exists "{}", (JObj []). repeat split.
    + left. split; reflexivity.
Defined.

(** A JSON argument that [json.loads] rejects makes the subcommand raise
    that error after resolving the target and before any API call:
    [--properties] and [--blocks] always (the empty string included), a
    non-empty [--filter] whatever [--sorts] is, and a non-empty [--sorts]
    whenever [--filter] is skipped or valid. *)
Theorem malformed_json_argument (json_loads : string -> outcome json) (e : env)
  (target a p exn : string) (id : json) (lines : list string) :
  get_client (env_token e) = Return a ->
  Cli.resolve e target = Return id ->
  json_loads p = Raise exn lines ->
  Cli.run_command json_loads e (UpdatePage target p) = Raise exn lines /\
  Cli.run_command json_loads e (AppendBlocks target p) = Raise exn lines /\
  (p <> "" -> forall sorts,
     Cli.run_command json_loads e (QueryDb target (Some p) sorts) = Raise exn lines) /\
  (p <> "" -> forall filter,
     (truthy filter = None \/
      exists f fj, truthy filter = Some f /\ json_loads f = Return fj) ->
     Cli.run_command json_loads e (QueryDb target filter (Some p)) = Raise exn lines).
Proof.
  intros Htok Hres Hp.
  cbn [Cli.run_command].
  unfold Cli.cmd_update_page, Cli.cmd_append_blocks, Cli.cmd_query_db.
  rewrite Htok; cbn [bind]; rewrite Hres; cbn [bind].
  split; [rewrite Hp; reflexivity|]. split; [rewrite Hp; reflexivity|].
  split.
  - intros Hne sorts.
    assert (Tp : truthy (Some p) = Some p)
      by (cbn; apply String.eqb_neq in Hne; rewrite Hne; reflexivity).
    rewrite Tp; cbn [bind]. rewrite Hp. reflexivity.
  - intros Hne filter Hf.
    assert (Tp : truthy (Some p) = Some p)
      by (cbn; apply String.eqb_neq in Hne; rewrite Hne; reflexivity).
    destruct Hf as [Hf | [f [fj [Hf Hl]]]]; rewrite Hf; cbn [bind];
      try (rewrite Hl; cbn [bind]); rewrite Tp; cbn [bind]; rewrite Hp; reflexivity.
Qed.

Lemma malformed_json_argument_witness :
  let e := mk_env (Some "secret") "cfg" sample_config "templates" (fun _ => None) in
  Cli.run_command Cli.toy_loads e (UpdatePage "project-db" "") = Raise "JSONDecodeError" [] /\
  Cli.run_command Cli.toy_loads e (AppendBlocks "project-db" "") = Raise "JSONDecodeError" [] /\
  Cli.run_command Cli.toy_loads e (QueryDb "project-db" (Some "{bad") (Some "[]"))
  = Raise "JSONDecodeError" [] /\
  Cli.run_command Cli.toy_loads e (QueryDb "project-db" (Some "{}") (Some "{bad"))
  = Raise "JSONDecodeError" [].
Proof.
  intros e.
  destruct (malformed_json_argument Cli.toy_loads e "project-db" "secret" ""
              "JSONDecodeError" (JStr "xyz") [] eq_refl eq_refl eq_refl) as [H1 [H2 _]].
  destruct (malformed_json_argument Cli.toy_loads e "project-db" "secret" "{bad"
              "JSONDecodeError" (JStr "xyz") [] eq_refl eq_refl eq_refl) as [_ [_ [H3 H4]]].
  split; [exact H1|]. split; [exact H2|]. split.
  - apply H3. discriminate.
  - apply H4; [discriminate|]. right. exists "{}", (JObj []). split; reflexivity.
Defined.

(** [create-db] forwards a loaded template with [parent] set to the
    resolved id, [object] removed and every other top-level field
    unchanged; without a template (or with an empty name) it sends the
    default body whose title is the [--title] or ["Untitled Database"],
    whatever the templates directory holds. *)
Theorem create_db_body (e : env) (target a : string) (id : json) (title : option string) :
  get_client (env_token e) = Return a ->
  Cli.resolve e target = Return id ->
  (forall name tkvs, name <> "" -> env_templates e name = Some (JObj tkvs) ->
   exists body,
     Cli.cmd_create_db e target (Some name) title
     = Return (mk_request a (DatabasesCreate body)) /\
     dict_get body "parent" = Some (JObj [("page_id", id)]) /\
     dict_get body "object" = None /\
     (forall k, k <> "parent" -> k <> "object" -> dict_get body k = dict_get tkvs k)) /\
  (forall tpl, truthy tpl = None ->
     Cli.cmd_create_db e target tpl title
     = Return (mk_request a (DatabasesCreate
         [("title", JArr [JObj [("type", JStr "text");
                                ("text", JObj [("content",
                                                JStr (Cli.db_title_or_default title))])]]);
          ("properties", JObj [("Name", JObj [("title", JObj [])])]);
          ("parent", JObj [("page_id", id)])]))) /\
  Cli.db_title_or_default None = "Untitled Database" /\
  Cli.db_title_or_default (Some "") = "Untitled Database" /\
  (forall t, t <> "" -> Cli.db_title_or_default (Some t) = t).
Proof.
  intros Htok Hres.
  split; [|split; [|split; [reflexivity|split; [reflexivity|]]]].
  - intros name tkvs Hne Ht.
    unfold Cli.cmd_create_db. rewrite Htok; cbn [bind]; rewrite Hres; cbn [bind].
    assert (Tn : truthy (Some name) = Some name)
      by (cbn; apply String.eqb_neq in Hne; rewrite Hne; reflexivity).
    rewrite Tn. unfold load_template. rewrite Ht. cbn [bind]. cbv zeta.
    eexists. split; [reflexivity|]. split; [|split].
    + rewrite dict_get_pop_other by discriminate. apply dict_get_set_same.
    + apply dict_get_pop_same.
    + intros k H1 H2. rewrite dict_get_pop_other, dict_get_set_other by assumption.
      reflexivity.
  - intros tpl Htpl. unfold Cli.cmd_create_db.
    rewrite Htok; cbn [bind]; rewrite Hres; cbn [bind]. rewrite Htpl. reflexivity.
  - intros t Ht'. unfold Cli.db_title_or_default. cbn.
    apply String.eqb_neq in Ht'. rewrite Ht'. reflexivity.
Qed.

Lemma create_db_body_witness :
  let tpl := JObj [("object", JStr "database"); ("title", JArr [])] in
  let e := mk_env (Some "secret") "cfg" sample_config "templates"
             (fun n => if String.eqb n "db" then Some tpl else None) in
  let e0 := mk_env (Some "secret") "cfg" sample_config "templates" (fun _ => None) in
  (exists body,
     Cli.cmd_create_db e "project-db" (Some "db") None
     = Return (mk_request "secret" (DatabasesCreate body)) /\
     dict_get body "parent" = Some (JObj [("page_id", JStr "xyz")]) /\
     dict_get body "object" = None /\
     (forall k, k <> "parent" -> k <> "object" ->
                dict_get body k = dict_get [("object", JStr "database"); ("title", JArr [])] k)) /\
  Cli.cmd_create_db e0 "project-db" None (Some "Tasks")
  = Return (mk_request "secret" (DatabasesCreate
      [("title", JArr [JObj [("type", JStr "text");
                             ("text", JObj [("content",
                                             JStr (Cli.db_title_or_default (Some "Tasks")))])]]);
       ("properties", JObj [("Name", JObj [("title", JObj [])])]);
       ("parent", JObj [("page_id", JStr "xyz")])])).
Proof.
  intros tpl e e0. split.
  - apply (proj1 (create_db_body e "project-db" "secret" (JStr "xyz") None eq_refl eq_refl)
             "db" [("object", JStr "database"); ("title", JArr [])]);
      [discriminate | reflexivity].
  - apply (proj1 (proj2 (create_db_body e0 "project-db" "secret" (JStr "xyz") (Some "Tasks")
                           eq_refl eq_refl)) None).
    reflexivity.
Defined.

(** [create-page] without a template (or with an empty name) sends the
    default body: a title from [--title], ["Untitled"] when it is absent
    or empty, no children, and [parent] set to the resolved id.  A named
    template that is not in the templates directory ends the run with the
    "Template not found" exit, showing the path pathlib forms from the
    templates directory and the name. *)
Theorem create_page_default_and_missing (e : env) (target a : string) (id : json)
  (title : option string) :
  get_client (env_token e) = Return a ->
  Cli.resolve e target = Return id ->
  (forall tpl, truthy tpl = None ->
     Cli.cmd_create_page e target tpl title
     = Return (mk_request a (PagesCreate
         [("properties",
           JObj [("title",
                  JObj [("title",
                         JArr [JObj [("type", JStr "text");
                                     ("text", JObj [("content",
                                                     JStr (CmdCreatePage.title_or_default title))])]])])]);
          ("children", JArr []);
          ("parent", JObj [("page_id", id)])]))) /\
  CmdCreatePage.title_or_default None = "Untitled" /\
  CmdCreatePage.title_or_default (Some "") = "Untitled" /\
  (forall t, t <> "" -> CmdCreatePage.title_or_default (Some t) = t) /\
  (forall name, name <> "" -> env_templates e name = None ->
     Cli.cmd_create_page e target (Some name) title
     = Exit 1 ["Error: Template '" ++ name ++ "' not found at "
               ++ path_join (env_templates_dir e) (name ++ ".json")]).
Proof.
  intros Htok Hres.
  split; [|split; [reflexivity|split; [reflexivity|split]]].
  - intros tpl Htpl. unfold Cli.cmd_create_page.
    rewrite Htok; cbn [bind]; rewrite Hres; cbn [bind]. rewrite Htpl. reflexivity.
  - intros t Ht. unfold CmdCreatePage.title_or_default.
    apply String.eqb_neq in Ht. rewrite Ht. reflexivity.
  - intros name Hne Hmiss. unfold Cli.cmd_create_page.
    rewrite Htok; cbn [bind]; rewrite Hres; cbn [bind].
    assert (Tn : truthy (Some name) = Some name)
      by (cbn; apply String.eqb_neq in Hne; rewrite Hne; reflexivity).
    rewrite Tn. unfold load_template. rewrite Hmiss. reflexivity.
Qed.

Lemma create_page_default_and_missing_witness :
  let e := mk_env (Some "secret") "cfg" sample_config "/repo/templates" (fun _ => None) in
  Cli.cmd_create_page e "project-db" None (Some "")
  = Return (mk_request "secret" (PagesCreate
      [("properties",
        JObj [("title",
               JObj [("title",
                      JArr [JObj [("type", JStr "text");
                                  ("text", JObj [("content",
                                                  JStr (CmdCreatePage.title_or_default (Some "")))])]])])]);
       ("children", JArr []);
       ("parent", JObj [("page_id", JStr "xyz")])])) /\
  Cli.cmd_create_page e "project-db" (Some "/tmp/x") None
  = Exit 1 ["Error: Template '/tmp/x' not found at " ++ path_join "/repo/templates" "/tmp/x.json"] /\
  Cli.cmd_create_page e "project-db" (Some "meeting") None
  = Exit 1 ["Error: Template 'meeting' not found at "
            ++ path_join "/repo/templates" "meeting.json"].
Proof.
  intros e.
  destruct (create_page_default_and_missing e "project-db" "secret" (JStr "xyz") (Some "")
              eq_refl eq_refl) as [H1 _].
  destruct (create_page_default_and_missing e "project-db" "secret" (JStr "xyz") None
              eq_refl eq_refl) as [_ [_ [_ [_ H5]]]].
  split; [apply H1; reflexivity|].
  split; apply H5; (discriminate || reflexivity).
Defined.

(** The path in the "Template not found" message, as pathlib prints it:
    a plain name lands in the templates directory, an absolute one
    replaces it, and ["."] segments and repeated slashes are dropped. *)
Example template_path_ex :
  path_join "/repo/templates" "meeting.json" = "/repo/templates/meeting.json" /\
  path_join "/repo/templates" "/tmp/x.json" = "/tmp/x.json" /\
  path_join "/repo/templates" "./a//b.json" = "/repo/templates/a/b.json" /\
  path_join "/" ".json" = "/.json".
Proof. vm_compute. repeat split. Qed.

(** ** The resolver *)

Lemma strip_dashes_app (u v : string) :
  strip_dashes (u ++ v) = strip_dashes u ++ strip_dashes v.
Proof.
  unfold strip_dashes. induction u as [|c u IH]; [reflexivity|].
  cbn [append list_ascii_of_string filter].
  destruct (Ascii.eqb c "-"%char); cbn [negb string_of_list_ascii]; [exact IH|].
  rewrite IH. reflexivity.
Qed.

(** Where the dashes of an identifier sit is irrelevant: inserting a dash
    anywhere leaves the raw-identifier test unchanged, and a raw
    identifier is returned with its dashes by both copies of
    [resolve_target], whatever the configuration. *)
Theorem resolve_dash_placement (config_path : string) (cfg : config_file) (u v : string) :
  looks_raw (u ++ "-" ++ v) = looks_raw (u ++ v) /\
  (looks_raw (u ++ v) = true ->
   NotionClient.resolve_target config_path cfg (u ++ "-" ++ v) = Return (JStr (u ++ "-" ++ v)) /\
   CreateProject.resolve_target config_path cfg (u ++ "-" ++ v) = Return (JStr (u ++ "-" ++ v))).
Proof.
  assert (E : looks_raw (u ++ "-" ++ v) = looks_raw (u ++ v)).
  { unfold looks_raw. rewrite !str_replace_dash, !strip_dashes_app. reflexivity. }
  split; [exact E|]. intros Hraw.
  unfold NotionClient.resolve_target, CreateProject.resolve_target.
  rewrite E, Hraw. split; reflexivity.
Qed.

Lemma resolve_dash_placement_witness :
  looks_raw ("a1b2c3d4e5f67890" ++ "-" ++ "abcdef1234567890")
  = looks_raw ("a1b2c3d4e5f67890" ++ "abcdef1234567890") /\
  NotionClient.resolve_target "cfg" CfgAbsent ("a1b2c3d4e5f67890" ++ "-" ++ "abcdef1234567890")
  = Return (JStr ("a1b2c3d4e5f67890" ++ "-" ++ "abcdef1234567890")).
Proof.
  destruct (resolve_dash_placement "cfg" CfgAbsent "a1b2c3d4e5f67890" "abcdef1234567890")
    as [E H].
  split; [exact E|]. apply H. vm_compute. reflexivity.
Defined.

(** A name holding a character that is neither a dash nor a lowercase
    hex digit (an uppercase hex digit, say) is never taken for a raw
    identifier: both copies go to the configuration, and exit with
    "Config not found" when it is absent. *)
Theorem resolve_non_hex_char (config_path name : string) (c : ascii) :
  In c (list_ascii_of_string name) -> c <> "-"%char -> ~ lower_hex_char c ->
  looks_raw name = false /\
  NotionClient.resolve_target config_path CfgAbsent name
  = Exit 1 ["Error: Config not found at " ++ config_path] /\
  CreateProject.resolve_target config_path CfgAbsent name
  = Exit 1 ["Error: Config not found at " ++ config_path].
Proof.
  intros Hin Hdash Hhex.
  assert (E : looks_raw name = false).
  { destruct (looks_raw name) eqn:E; [exfalso|reflexivity].
    apply looks_raw_iff in E as [_ Hf]. rewrite Forall_forall in Hf.
    apply Hhex, Hf. unfold strip_dashes.
    rewrite list_ascii_of_string_of_list_ascii. apply filter_In. split; [exact Hin|].
    apply Bool.negb_true_iff, Ascii.eqb_neq. exact Hdash. }
  unfold NotionClient.resolve_target, CreateProject.resolve_target.
  rewrite E. split; [reflexivity|split; reflexivity].
Qed.

Lemma resolve_non_hex_char_witness :
  looks_raw "A1B2C3D4E5F67890ABCDEF1234567890" = false /\
  NotionClient.resolve_target "cfg" CfgAbsent "A1B2C3D4E5F67890ABCDEF1234567890"
  = Exit 1 ["Error: Config not found at cfg"] /\
  CreateProject.resolve_target "cfg" CfgAbsent "A1B2C3D4E5F67890ABCDEF1234567890"
  = Exit 1 ["Error: Config not found at cfg"].
Proof.
  apply (resolve_non_hex_char "cfg" "A1B2C3D4E5F67890ABCDEF1234567890" "A"%char).
  - apply str_mem_In. reflexivity.
  - discriminate.
  - intros H. apply str_mem_In in H. vm_compute in H. discriminate.
Defined.

(** A configuration file that exists but cannot be parsed never leads to
    the "Config not found" or unknown-target exits: for every name that is
    not a raw identifier both copies raise, with nothing printed, the
    error reading it raised ([IsADirectoryError], [UnicodeDecodeError],
    ...), or [JSONDecodeError] for readable text that is not JSON.  A
    parsed document whose top level is not an object makes both raise
    [AttributeError] on [.get]. *)
Theorem resolve_config_unreadable (config_path name : string) :
  looks_raw name = false ->
  (forall exn,
     NotionClient.resolve_target config_path (CfgUnreadable exn) name = Raise exn [] /\
     CreateProject.resolve_target config_path (CfgUnreadable exn) name = Raise exn []) /\
  NotionClient.resolve_target config_path CfgMalformed name = Raise "JSONDecodeError" [] /\
  CreateProject.resolve_target config_path CfgMalformed name = Raise "JSONDecodeError" [] /\
  (forall j, (forall kvs, j <> JObj kvs) ->
     NotionClient.resolve_target config_path (CfgParsed j) name = Raise "AttributeError" [] /\
     CreateProject.resolve_target config_path (CfgParsed j) name = Raise "AttributeError" []).
Proof.
  intros Hraw.
  unfold NotionClient.resolve_target, CreateProject.resolve_target.
  rewrite Hraw. split; [intros exn; split; reflexivity|].
  split; [reflexivity|split; [reflexivity|]].
  intros j Hj. destruct j as [| | | | |kvs]; try (split; reflexivity).
  exfalso. exact (Hj kvs eq_refl).
Qed.

Lemma resolve_config_unreadable_witness :
  (NotionClient.resolve_target "cfg" (CfgUnreadable "UnicodeDecodeError") "project-db"
   = Raise "UnicodeDecodeError" [] /\
   CreateProject.resolve_target "cfg" (CfgUnreadable "UnicodeDecodeError") "project-db"
   = Raise "UnicodeDecodeError" []) /\
  NotionClient.resolve_target "cfg" CfgMalformed "project-db" = Raise "JSONDecodeError" [] /\
  NotionClient.resolve_target "cfg" (CfgParsed (JArr [])) "project-db"
  = Raise "AttributeError" [].
Proof.
  destruct (resolve_config_unreadable "cfg" "project-db" eq_refl) as [H1 [H2 [_ H4]]].
  split; [apply H1|]. split; [exact H2|].
  apply (H4 (JArr [])). discriminate.
Defined.

(** A listed entry without an [id] field makes both copies raise
    [KeyError]; an entry that is not an object makes both raise
    [TypeError]. *)
Theorem resolve_bad_entry (config_path name : string) (kvs tkvs : list (string * json))
  (entry : json) :
  looks_raw name = false ->
  dict_get kvs "targets" = Some (JObj tkvs) ->
  dict_get tkvs name = Some entry ->
  let r1 := NotionClient.resolve_target config_path (CfgParsed (JObj kvs)) name in
  let r2 := CreateProject.resolve_target config_path (CfgParsed (JObj kvs)) name in
  (forall ekvs, entry = JObj ekvs -> dict_get ekvs "id" = None ->
                r1 = Raise "KeyError" [] /\ r2 = Raise "KeyError" []) /\
  ((forall ekvs, entry <> JObj ekvs) -> r1 = Raise "TypeError" [] /\ r2 = Raise "TypeError" []).
Proof.
  intros Hraw Ht Hn r1 r2.
  assert (R : r1 = entry_id entry /\ r2 = entry_id entry).
  { unfold r1, r2. rewrite resolve_target_copies.
    unfold NotionClient.resolve_target; rewrite Hraw; cbn [NotionClient.load_config bind].
    cbn [get_targets]. rewrite Ht. cbn [bind lookup_target]. rewrite Hn.
    split; reflexivity. }
  destruct R as [-> ->]. split.
  - intros ekvs -> Hid. cbn [entry_id]. rewrite Hid. split; reflexivity.
  - intros Hne. destruct entry as [| | | | |ekvs]; try (split; reflexivity).
    exfalso. exact (Hne ekvs eq_refl).
Qed.

Lemma resolve_bad_entry_witness :
  let cfg := fun e => CfgParsed (JObj [("targets", JObj [("project-db", e)])]) in
  (NotionClient.resolve_target "cfg" (cfg (JObj [("name", JStr "x")])) "project-db"
   = Raise "KeyError" [] /\
   CreateProject.resolve_target "cfg" (cfg (JObj [("name", JStr "x")])) "project-db"
   = Raise "KeyError" []) /\
  (NotionClient.resolve_target "cfg" (cfg (JStr "xyz")) "project-db" = Raise "TypeError" [] /\
   CreateProject.resolve_target "cfg" (cfg (JStr "xyz")) "project-db" = Raise "TypeError" []).
Proof.
  intros cfg. split.
  - apply (proj1 (resolve_bad_entry "cfg" "project-db"
                    [("targets", JObj [("project-db", JObj [("name", JStr "x")])])]
                    [("project-db", JObj [("name", JStr "x")])]
                    (JObj [("name", JStr "x")]) eq_refl eq_refl eq_refl))
      with (ekvs := [("name", JStr "x")]); reflexivity.
  - apply (proj2 (resolve_bad_entry "cfg" "project-db"
                    [("targets", JObj [("project-db", JStr "xyz")])]
                    [("project-db", JStr "xyz")] (JStr "xyz") eq_refl eq_refl eq_refl)).
    discriminate.
Defined.

(** A [targets] value that is not an object (a list, a string, a number,
    [null]) never yields an identifier nor the unknown-target exit: both
    copies raise a Python exception for every name that is not a raw
    identifier. *)
Theorem resolve_targets_not_object (config_path name : string)
  (kvs : list (string * json)) (targets : json) :
  looks_raw name = false ->
  dict_get kvs "targets" = Some targets ->
  (forall tkvs, targets <> JObj tkvs) ->
  exists exn lines,
    NotionClient.resolve_target config_path (CfgParsed (JObj kvs)) name = Raise exn lines /\
    CreateProject.resolve_target config_path (CfgParsed (JObj kvs)) name = Raise exn lines.
Proof.
  intros Hraw Ht Hno. rewrite resolve_target_copies.
  unfold NotionClient.resolve_target; rewrite Hraw; cbn [NotionClient.load_config bind].
  cbn [get_targets]. rewrite Ht. cbn [bind].
  destruct targets as [| | | s | items | tkvs]; cbn [lookup_target];
    try (eexists _, _; split; reflexivity).
  - destruct (contains name s); eexists _, _; split; reflexivity.
  - destruct (existsb _ items); eexists _, _; split; reflexivity.
  - exfalso. exact (Hno tkvs eq_refl).
Qed.

Lemma resolve_targets_not_object_witness :
  exists exn lines,
    NotionClient.resolve_target "cfg"
      (CfgParsed (JObj [("targets", JArr [JStr "project-db"])])) "project-db"
    = Raise exn lines /\
    CreateProject.resolve_target "cfg"
      (CfgParsed (JObj [("targets", JArr [JStr "project-db"])])) "project-db"
    = Raise exn lines.
Proof.
  apply (resolve_targets_not_object "cfg" "project-db"
           [("targets", JArr [JStr "project-db"])] (JArr [JStr "project-db"]));
    [reflexivity | reflexivity | discriminate].
Defined.

(** ** The substitution pass *)

Lemma subst_str_app (r1 r2 : list (string * string)) (s : string) :
  subst_str (r1 ++ r2)%list s = subst_str r2 (subst_str r1 s).
Proof.
  revert s. induction r1 as [|[k v] r1 IH]; intros s; [reflexivity|].
  cbn [app subst_str]. apply IH.
Qed.

(** Two passes compose: substituting [r1] and then [r2] is one pass
    with the keys of [r1] followed by those of [r2]. *)
Theorem replace_placeholders_compose (doc : json) (r1 r2 : list (string * string)) :
  replace_placeholders (replace_placeholders doc r1) r2
  = replace_placeholders doc (r1 ++ r2)%list.
Proof.
  induction doc using json_ind'; cbn [replace_placeholders]; try reflexivity.
  - rewrite subst_str_app. reflexivity.
  - f_equal. rewrite map_map.
    induction H as [|x xs Hx Hxs IH]; cbn [map]; congruence.
  - f_equal. rewrite map_map.
    induction H as [|[k v] kvs Hkv Hkvs IH]; cbn [map fst snd] in *; congruence.
Qed.

(** A key whose token occurs in no string leaf of the document can be
    dropped from the front of the replacement set: its pass changes
    nothing. *)
Theorem replace_placeholders_unused_key (doc : json) (key value : string)
  (r : list (string * string)) :
  mentions (token key) doc = false ->
  replace_placeholders doc ((key, value) :: r) = replace_placeholders doc r.
Proof.
  induction doc using json_ind'; cbn [replace_placeholders mentions]; intros Hm;
    try reflexivity.
  - cbn [subst_str]. rewrite str_replace_token, replace_from_absent by exact Hm.
    reflexivity.
  - f_equal. induction H as [|x xs Hx Hxs IH]; [reflexivity|].
    cbn [existsb] in Hm. apply Bool.orb_false_iff in Hm as [H1 H2].
    cbn [map]. rewrite Hx, IH by assumption. reflexivity.
  - f_equal. induction H as [|kv kvs Hkv Hkvs IH]; [reflexivity|].
    cbn [existsb] in Hm. apply Bool.orb_false_iff in Hm as [H1 H2].
    cbn [map]. rewrite Hkv, IH by assumption. reflexivity.
Qed.

Lemma replace_placeholders_unused_key_witness :
  replace_placeholders (JObj [("title", JStr "{{PROJECT_NAME}}")])
    [("DATE", "2026-10-14"); ("PROJECT_NAME", "Apollo")]
  = replace_placeholders (JObj [("title", JStr "{{PROJECT_NAME}}")])
      [("PROJECT_NAME", "Apollo")].
Proof. apply replace_placeholders_unused_key. vm_compute. reflexivity. Defined.

(** ** The store model *)

Module StoreFacts2.
Import Store StoreFacts.

Lemma nth_error_heap_set_other (h : heap) (l i : nat) (c : cell) :
  i <> l -> nth_error (heap_set h l c) i = nth_error h i.
Proof.
  revert l i. induction h as [|x r IH]; intros l i Hne; [reflexivity|].
  destruct l as [|l], i as [|i]; cbn [heap_set nth_error]; try reflexivity.
  - congruence.
  - apply IH. congruence.
Qed.

(** [to_json] only reads cells; a heap that holds every cell it read
    gives the same tree. *)
Lemma to_json_agree (n : nat) :
  forall h h2 v j,
    (forall l c, nth_error h l = Some c -> nth_error h2 l = Some c) ->
    to_json n h v = Some j -> to_json n h2 v = Some j.
Proof.
  induction n as [|n IH]; intros h h2 v j Hag H; [discriminate|].
  destruct v as [| | | |l]; cbn [to_json] in *; try exact H.
  destruct (nth_error h l) as [c|] eqn:Hl; [|discriminate].
  rewrite (Hag l c Hl).
  destruct c as [items|kvs].
  - destruct (fold_right _ (Some []) items) as [js|] eqn:Hf; [|discriminate].
    match goal with |- context [fold_right ?F (Some []) items] =>
      assert (Hg : fold_right F (Some []) items = Some js) end;
      [|rewrite Hg; exact H].
    clear H Hl. revert js Hf. induction items as [|it items IHi]; intros js Hf;
      [exact Hf|].
    simpl in *. destruct (to_json n h it) as [j1|] eqn:Hj; [|discriminate].
    rewrite (IH h h2 it j1 Hag Hj).
    destruct (fold_right _ (Some []) items) as [js1|]; [|discriminate].
    rewrite (IHi js1 eq_refl). exact Hf.
  - destruct (fold_right _ (Some []) kvs) as [js|] eqn:Hf; [|discriminate].
    match goal with |- context [fold_right ?F (Some []) kvs] =>
      assert (Hg : fold_right F (Some []) kvs = Some js) end;
      [|rewrite Hg; exact H].
    clear H Hl. revert js Hf. induction kvs as [|kv kvs IHi]; intros js Hf;
      [exact Hf|].
    simpl in *. destruct (to_json n h (snd kv)) as [j1|] eqn:Hj; [|discriminate].
    rewrite (IH h h2 (snd kv) j1 Hag Hj).
    destruct (fold_right _ (Some []) kvs) as [js1|]; [|discriminate].
    rewrite (IHi js1 eq_refl). exact Hf.
Qed.

Lemma map_st_ext {A B : Type} (f : A -> heap -> option B * heap) (xs : list A) (h : heap) :
  (forall x h0, exists ext, snd (f x h0) = (h0 ++ ext)%list) ->
  exists ext, snd (map_st f xs h) = (h ++ ext)%list.
Proof. intros Hf. apply map_st_frame. intros x h0 _. apply Hf. Qed.

(** A container argument comes back as a reference to a cell allocated
    by the call, past every cell of the heap it started from. *)
Lemma replace_placeholders_fresh (fuel : nat) (l : nat) (r : list (string * string))
  (h : heap) (l' : nat) (h' : heap) :
  replace_placeholders fuel (PRef l) r h = (Some (PRef l'), h') ->
  List.length h <= l' /\ exists ext, h' = (h ++ ext)%list.
Proof.
  intros H.
  pose proof (replace_placeholders_frame fuel (PRef l) r h) as [ext Hext].
  rewrite H in Hext. cbn [snd] in Hext. split; [|exists ext; exact Hext].
  destruct fuel as [|fuel]; [discriminate|].
  cbn [replace_placeholders] in H.
  destruct (nth_error h l) as [[items|kvs]|]; [| |discriminate].
  - destruct (map_st_ext (fun item => replace_placeholders fuel item r) items h
                (fun x h0 => replace_placeholders_frame fuel x r h0)) as [e He].
    destruct (map_st _ items h) as [[items'|] h1]; [|discriminate].
    cbn [snd] in He. subst h1. cbn [alloc] in H. injection H as <- _.
    rewrite length_app. lia.
  - assert (Hkv : forall (kv : string * pyval) (h0 : heap), exists ext,
               snd (match replace_placeholders fuel (snd kv) r h0 with
                    | (Some v', h1) => (Some (fst kv, v'), h1)
                    | (None, h1) => (None, h1)
                    end) = (h0 ++ ext)%list).
    { intros kv h0. destruct (replace_placeholders_frame fuel (snd kv) r h0) as [e He].
      destruct (replace_placeholders fuel (snd kv) r h0) as [[v'|] h1];
        cbn [snd] in *; subst h1; exists e; reflexivity. }
    destruct (map_st_ext _ kvs h Hkv) as [e He].
    destruct (map_st _ kvs h) as [[kvs'|] h1]; [|discriminate].
    cbn [snd] in He. subst h1. cbn [alloc] in H. injection H as <- _.
    rewrite length_app. lia.
Qed.

End StoreFacts2.

(** The returned container is a new object: assigning into it as
    [create_project_page] does ([body["parent"] = ...]) leaves the loaded
    template as it read before the call. *)
Theorem replace_placeholders_fresh_result (fuel l : nat) (r : list (string * string))
  (h : Store.heap) (l' : nat) (h' : Store.heap) :
  Store.replace_placeholders fuel (Store.PRef l) r h = (Some (Store.PRef l'), h') ->
  l' <> l /\
  (forall c n j, Store.to_json n h (Store.PRef l) = Some j ->
                 Store.to_json n (Store.heap_set h' l' c) (Store.PRef l) = Some j).
Proof.
  intros H.
  destruct (StoreFacts2.replace_placeholders_fresh fuel l r h l' h' H) as [Hle [ext ->]].
  assert (Hl : l < List.length h).
  { destruct fuel as [|fuel]; [discriminate|]. cbn [Store.replace_placeholders] in H.
    destruct (nth_error h l) eqn:E; [|discriminate].
    apply nth_error_Some. congruence. }
  split; [lia|].
  intros c n j Hj. apply (StoreFacts2.to_json_agree n h); [|exact Hj].
  intros i ci Hi.
  assert (i < List.length h) by (apply nth_error_Some; congruence).
  rewrite StoreFacts2.nth_error_heap_set_other by lia.
  apply StoreFacts.nth_error_extend. exact Hi.
Qed.

Lemma replace_placeholders_fresh_result_witness :
  3 <> 1 /\
  (forall c n j, Store.to_json n Store.sample_heap (Store.PRef 1) = Some j ->
     Store.to_json n (Store.heap_set
                        (snd (Store.replace_placeholders 5 (Store.PRef 1) [("X", "Apollo")]
                                Store.sample_heap)) 3 c) (Store.PRef 1) = Some j).
Proof.
  apply (replace_placeholders_fresh_result 5 1 [("X", "Apollo")] Store.sample_heap 3).
  vm_compute. reflexivity.
Defined.

(** ** create_project.py, [main] *)

(** [main] sends at most one request, and only once the token, the
    parent and the template have all been obtained: it is authenticated
    with the token, and it is [pages.create] on the substituted template
    with [parent] set to the resolved id, [icon] set to the emoji, [object]
    removed and every other top-level field as substitution left it. *)
Theorem main_sent_request (api : request -> outcome json) (py_str : json -> string)
  (e : env) (today name parent template icon : string) :
  let run := CreateProjectMain.main api py_str e today name parent template icon in
  List.length (t_requests run) <= 1 /\
  forall req, In req (t_requests run) ->
  exists a pid tpl tkvs body,
    get_client (env_token e) = Return a /\
    CreateProject.resolve_target (env_config_path e) (env_config e) parent = Return pid /\
    env_templates e template = Some tpl /\
    replace_placeholders tpl [("PROJECT_NAME", name); ("DATE", today)] = JObj tkvs /\
    req = mk_request a (PagesCreate body) /\
    dict_get body "parent" = Some (JObj [("page_id", pid)]) /\
    dict_get body "icon" = Some (CreateProjectPage.icon_ref icon) /\
    dict_get body "object" = None /\
    (forall k, k <> "parent" -> k <> "icon" -> k <> "object" ->
               dict_get body k = dict_get tkvs k).
Proof.
  intros run.
  assert (R : t_requests run = [] \/
              exists a pid tpl tkvs,
                get_client (env_token e) = Return a /\
                CreateProject.resolve_target (env_config_path e) (env_config e) parent
                = Return pid /\
                env_templates e template = Some tpl /\
                replace_placeholders tpl [("PROJECT_NAME", name); ("DATE", today)]
                = JObj tkvs /\
                t_requests run
                = [mk_request a (PagesCreate
                     (dict_pop (dict_set (dict_set tkvs "parent" (JObj [("page_id", pid)]))
                                  "icon" (CreateProjectPage.icon_ref icon)) "object"))]).
  { unfold run, CreateProjectMain.main.
    destruct (get_client (env_token e)) as [a| |] eqn:Ht; cbn [CreateProjectMain.stop];
      [|left; reflexivity|left; reflexivity].
    destruct (CreateProject.resolve_target _ _ parent) as [pid| |] eqn:Hr;
      cbn [CreateProjectMain.stop]; [|left; reflexivity|left; reflexivity].
    unfold CreateProjectMain.create_page, load_template.
    destruct (env_templates e template) as [tpl|] eqn:Htp; cbn [bind];
      [|left; reflexivity].
    destruct (replace_placeholders tpl _) as [| | | | |tkvs] eqn:Hs;
      cbn [CreateProjectMain.stop]; try (left; reflexivity).
    right. exists a, pid, tpl, tkvs. do 4 (split; [first [assumption | reflexivity]|]).
    destruct (api _) as [[| | | | |fields]| |]; cbn [CreateProjectMain.stop];
      try reflexivity.
    destruct (dict_get fields "id"); reflexivity. }
  destruct R as [R | [a [pid [tpl [tkvs [Ht [Hr [Htp [Hs R]]]]]]]]]; rewrite R.
  - split; [cbn; lia|]. intros req [].
  - split; [cbn; lia|]. intros req [<- | []].
    exists a, pid, tpl, tkvs. eexists.
    do 5 (split; [first [assumption | reflexivity]|]).
    split; [|split; [|split]].
    + rewrite dict_get_pop_other by discriminate.
      rewrite dict_get_set_other by discriminate. apply dict_get_set_same.
    + rewrite dict_get_pop_other by discriminate. apply dict_get_set_same.
    + apply dict_get_pop_same.
    + intros k H1 H2 H3.
      rewrite dict_get_pop_other, !dict_get_set_other by assumption. reflexivity.
Qed.

Lemma main_sent_request_witness :
  let tpl := JObj [("object", JStr "page"); ("title", JStr "{{PROJECT_NAME}}")] in
  let e := mk_env (Some "secret") "cfg" sample_config "templates" (fun _ => Some tpl) in
  let run := CreateProjectMain.main (fun _ => Return (JObj [("id", JStr "p1")]))
               (fun _ => "?") e "2026-10-14" "Apollo" "project-db" "project-page" "R" in
  List.length (t_requests run) <= 1 /\
  exists a pid tpl' tkvs body,
    get_client (env_token e) = Return a /\
    CreateProject.resolve_target (env_config_path e) (env_config e) "project-db" = Return pid /\
    env_templates e "project-page" = Some tpl' /\
    replace_placeholders tpl' [("PROJECT_NAME", "Apollo"); ("DATE", "2026-10-14")]
    = JObj tkvs /\
    hd_error (t_requests run) = Some (mk_request a (PagesCreate body)) /\
    dict_get body "parent" = Some (JObj [("page_id", pid)]) /\
    dict_get body "icon" = Some (CreateProjectPage.icon_ref "R") /\
    dict_get body "object" = None /\
    (forall k, k <> "parent" -> k <> "icon" -> k <> "object" ->
               dict_get body k = dict_get tkvs k).
Proof.
  intros tpl e run.
  destruct (main_sent_request (fun _ => Return (JObj [("id", JStr "p1")])) (fun _ => "?") e
              "2026-10-14" "Apollo" "project-db" "project-page" "R") as [Hlen Hin].
  split; [exact Hlen|].
  assert (Hr : exists req, t_requests run = [req]) by (eexists; reflexivity).
  destruct Hr as [req Hr].
  destruct (Hin req) as [a [pid [tpl' [tkvs [body H]]]]].
  { change (In req (t_requests run)). rewrite Hr. left. reflexivity. }
  destruct H as [H1 [H2 [H3 [H4 [H5 H6]]]]].
  exists a, pid, tpl', tkvs, body.
  do 4 (split; [assumption|]). split; [|exact H6].
  rewrite Hr, H5. reflexivity.
Defined.

(** A successful run prints the five header lines (the parent as given
    and as resolved), then "Project page created!" with the page's [id]
    and [url] ([url] printed empty when the response has none), sends
    exactly one request and returns the response. *)
Theorem main_success (api : request -> outcome json) (py_str : json -> string)
  (e : env) (today name parent template icon a : string) (pid : json) (req : request)
  (fields : list (string * json)) (page_id url : json) :
  get_client (env_token e) = Return a ->
  CreateProject.resolve_target (env_config_path e) (env_config e) parent = Return pid ->
  CreateProjectMain.create_page e a pid name today template icon = Return req ->
  api req = Return (JObj fields) ->
  dict_get fields "id" = Some page_id ->
  dict_get fields "url" = Some url \/ (dict_get fields "url" = None /\ url = JStr "") ->
  CreateProjectMain.main api py_str e today name parent template icon
  = mk_trace (app (CreateProjectMain.header py_str name parent pid template icon)
                  ["Project page created!";
                   "  ID:  " ++ CreateProjectMain.show py_str page_id;
                   "  URL: " ++ CreateProjectMain.show py_str url])
             [req] (Return (JObj fields)).
Proof.
  intros Htok Hres Hcp Hapi Hid Hurl.
  unfold CreateProjectMain.main. rewrite Htok; cbn [CreateProjectMain.stop].
  rewrite Hres; cbn [CreateProjectMain.stop]. rewrite Hcp; cbn [CreateProjectMain.stop].
  rewrite Hapi; cbn [CreateProjectMain.stop]. rewrite Hid.
  destruct Hurl as [Hu | [Hu ->]]; rewrite Hu; reflexivity.
Qed.

Lemma main_success_witness :
  let tpl := JObj [("object", JStr "page"); ("title", JStr "{{PROJECT_NAME}}")] in
  let e := mk_env (Some "secret") "cfg" sample_config "templates" (fun _ => Some tpl) in
  let api := fun _ : request => Return (JObj [("id", JStr "p1")]) in
  CreateProjectMain.main api (fun _ => "?") e "2026-10-14" "Apollo" "project-db"
    "project-page" "R"
  = mk_trace (app (CreateProjectMain.header (fun _ => "?") "Apollo" "project-db"
                     (JStr "xyz") "project-page" "R")
                  ["Project page created!";
                   "  ID:  " ++ CreateProjectMain.show (fun _ => "?") (JStr "p1");
                   "  URL: " ++ CreateProjectMain.show (fun _ => "?") (JStr "")])
             [mk_request "secret" (PagesCreate [("title", JStr "Apollo");
                                                ("parent", JObj [("page_id", JStr "xyz")]);
                                                ("icon", CreateProjectPage.icon_ref "R")])]
             (Return (JObj [("id", JStr "p1")])).
Proof.
  intros tpl e api.
  apply (main_success api (fun _ => "?") e "2026-10-14" "Apollo" "project-db"
           "project-page" "R" "secret" (JStr "xyz")
           (mk_request "secret" (PagesCreate [("title", JStr "Apollo");
                                              ("parent", JObj [("page_id", JStr "xyz")]);
                                              ("icon", CreateProjectPage.icon_ref "R")]))
           [("id", JStr "p1")] (JStr "p1") (JStr ""));
    try reflexivity.
  right. split; reflexivity.
Defined.

(** Failures after the request: a response without [id] raises
    [KeyError], a response that is not an object raises [TypeError], and
    an API error propagates; in each case the header has been printed and
    the one request has been sent, but "Project page created!" is not
    printed. *)
Theorem main_after_request_failures (api : request -> outcome json) (py_str : json -> string)
  (e : env) (today name parent template icon a : string) (pid : json) (req : request) :
  get_client (env_token e) = Return a ->
  CreateProject.resolve_target (env_config_path e) (env_config e) parent = Return pid ->
  CreateProjectMain.create_page e a pid name today template icon = Return req ->
  let out := CreateProjectMain.header py_str name parent pid template icon in
  let run := CreateProjectMain.main api py_str e today name parent template icon in
  (forall fields, api req = Return (JObj fields) -> dict_get fields "id" = None ->
     run = mk_trace out [req] (Raise "KeyError" [])) /\
  (forall v, api req = Return v -> (forall fields, v <> JObj fields) ->
     run = mk_trace out [req] (Raise "TypeError" [])) /\
  (forall x m, api req = Raise x m -> run = mk_trace out [req] (Raise x m)).
Proof.
  intros Htok Hres Hcp out run.
  assert (R : run = CreateProjectMain.stop out [req] (api req) (fun result =>
    match result with
    | JObj fields =>
        match dict_get fields "id" with
        | Some page_id =>
            let url := match dict_get fields "url" with Some u => u | None => JStr "" end in
            mk_trace (app out ["Project page created!";
                               "  ID:  " ++ CreateProjectMain.show py_str page_id;
                               "  URL: " ++ CreateProjectMain.show py_str url])
                     [req] (Return result)
        | None => mk_trace out [req] (Raise "KeyError" [])
        end
    | _ => mk_trace out [req] (Raise "TypeError" [])
    end)).
  { unfold run, CreateProjectMain.main. rewrite Htok; cbn [CreateProjectMain.stop].
    rewrite Hres; cbn [CreateProjectMain.stop]. rewrite Hcp. reflexivity. }
  rewrite R. split; [|split].
  - intros fields Hapi Hid. rewrite Hapi. cbn [CreateProjectMain.stop]. rewrite Hid.
    reflexivity.
  - intros v Hapi Hv. rewrite Hapi. cbn [CreateProjectMain.stop].
    destruct v as [| | | | |fields]; try reflexivity. exfalso. exact (Hv fields eq_refl).
  - intros x m Hapi. rewrite Hapi. reflexivity.
Qed.

Lemma main_after_request_failures_witness :
  let tpl := JObj [("title", JStr "{{PROJECT_NAME}}")] in
  let e := mk_env (Some "secret") "cfg" sample_config "templates" (fun _ => Some tpl) in
  let req := mk_request "secret" (PagesCreate [("title", JStr "Apollo");
                                               ("parent", JObj [("page_id", JStr "xyz")]);
                                               ("icon", CreateProjectPage.icon_ref "R")]) in
  let api := fun _ : request => Return (JObj [("object", JStr "page")]) in
  CreateProjectMain.main api (fun _ => "?") e "2026-10-14" "Apollo" "project-db"
    "project-page" "R"
  = mk_trace (CreateProjectMain.header (fun _ => "?") "Apollo" "project-db" (JStr "xyz")
                "project-page" "R") [req] (Raise "KeyError" []).
Proof.
  intros tpl e req api.
  apply (proj1 (main_after_request_failures api (fun _ => "?") e "2026-10-14" "Apollo"
                  "project-db" "project-page" "R" "secret" (JStr "xyz") req
                  eq_refl eq_refl eq_refl)) with (fields := [("object", JStr "page")]);
    reflexivity.
Defined.

(** Failures before the request: a template missing from the templates
    directory exits with "Template not found", and a template that is
    not an object raises [TypeError]; both after the header, with no
    request sent.  A token or resolution failure comes earlier still:
    nothing is printed and nothing is sent. *)
Theorem main_before_request_failures (api : request -> outcome json) (py_str : json -> string)
  (e : env) (today name parent template icon a : string) :
  get_client (env_token e) = Return a ->
  let run := CreateProjectMain.main api py_str e today name parent template icon in
  (forall pid,
     CreateProject.resolve_target (env_config_path e) (env_config e) parent = Return pid ->
     let out := CreateProjectMain.header py_str name parent pid template icon in
     (env_templates e template = None ->
      run = mk_trace out [] (Exit 1 ["Error: Template '" ++ template ++ "' not found at "
                                     ++ path_join (env_templates_dir e)
                                          (template ++ ".json")])) /\
     (forall t, env_templates e template = Some t -> (forall kvs, t <> JObj kvs) ->
      run = mk_trace out [] (Raise "TypeError" []))) /\
  (forall c m,
     CreateProject.resolve_target (env_config_path e) (env_config e) parent = Exit c m ->
     run = mk_trace [] [] (Exit c m)) /\
  (forall x m,
     CreateProject.resolve_target (env_config_path e) (env_config e) parent = Raise x m ->
     run = mk_trace [] [] (Raise x m)).
Proof.
  intros Htok run.
  unfold run, CreateProjectMain.main. rewrite Htok; cbn [CreateProjectMain.stop].
  split; [|split].
  - intros pid Hres. rewrite Hres; cbn [CreateProjectMain.stop].
    unfold CreateProjectMain.create_page, load_template. split.
    + intros Hm. rewrite Hm. reflexivity.
    + intros t Ht Hno. rewrite Ht. cbn [bind].
      destruct t as [| | |s|items|kvs]; cbn [replace_placeholders]; try reflexivity.
      exfalso. exact (Hno kvs eq_refl).
  - intros c m Hres. rewrite Hres. reflexivity.
  - intros x m Hres. rewrite Hres. reflexivity.
Qed.

Lemma main_before_request_failures_witness :
  let e := mk_env (Some "secret") "cfg" sample_config "templates" (fun _ => None) in
  CreateProjectMain.main (fun _ => Return JNull) (fun _ => "?") e "2026-10-14" "Apollo"
    "project-db" "project-page" "R"
  = mk_trace (CreateProjectMain.header (fun _ => "?") "Apollo" "project-db" (JStr "xyz")
                "project-page" "R") []
             (Exit 1 ["Error: Template 'project-page' not found at templates/project-page.json"]).
Proof.
  intros e.
  apply (proj1 (proj1 (main_before_request_failures (fun _ => Return JNull) (fun _ => "?") e
                  "2026-10-14" "Apollo" "project-db" "project-page" "R" "secret" eq_refl)
                  (JStr "xyz") eq_refl)).
  reflexivity.
Defined.

(** ** More on the subcommands *)

(** [update-page], [append-blocks] and [get-page] address the resolved id
    and pass the parsed JSON argument unchanged: as [properties], as the
    [children] list, or nothing. *)
Theorem id_commands_requests (json_loads : string -> outcome json) (e : env)
  (target a p : string) (id pj : json) :
  get_client (env_token e) = Return a ->
  Cli.resolve e target = Return id ->
  json_loads p = Return pj ->
  Cli.run_command json_loads e (UpdatePage target p)
  = Return (mk_request a (PagesUpdate id pj)) /\
  Cli.run_command json_loads e (AppendBlocks target p)
  = Return (mk_request a (BlocksChildrenAppend id pj)) /\
  Cli.run_command json_loads e (GetPage target)
  = Return (mk_request a (PagesRetrieve id)).
Proof.
  intros Htok Hres Hp. cbn [Cli.run_command].
  unfold Cli.cmd_update_page, Cli.cmd_append_blocks, Cli.cmd_get_page.
  rewrite Htok; cbn [bind]; rewrite Hres; cbn [bind]; rewrite Hp.
  repeat split; reflexivity.
Qed.

Lemma id_commands_requests_witness :
  let e := mk_env (Some "secret") "cfg" sample_config "templates" (fun _ => None) in
  Cli.run_command Cli.toy_loads e (UpdatePage "project-db" "{}")
  = Return (mk_request "secret" (PagesUpdate (JStr "xyz") (JObj []))) /\
  Cli.run_command Cli.toy_loads e (AppendBlocks "project-db" "{}")
  = Return (mk_request "secret" (BlocksChildrenAppend (JStr "xyz") (JObj []))) /\
  Cli.run_command Cli.toy_loads e (GetPage "project-db")
  = Return (mk_request "secret" (PagesRetrieve (JStr "xyz"))).
Proof.
  intros e. apply (id_commands_requests Cli.toy_loads e "project-db" "secret" "{}"
                     (JStr "xyz") (JObj [])); reflexivity.
Defined.

(** With a non-empty [--template], [create-page] and [create-db] ignore
    [--title]: the outcome is the same whatever title is given. *)
Theorem title_ignored_with_template (json_loads : string -> outcome json) (e : env)
  (target name : string) (title title' : option string) :
  name <> "" ->
  Cli.run_command json_loads e (CreatePage target (Some name) title)
  = Cli.run_command json_loads e (CreatePage target (Some name) title') /\
  Cli.run_command json_loads e (CreateDb target (Some name) title)
  = Cli.run_command json_loads e (CreateDb target (Some name) title').
Proof.
  intros Hne.
  assert (Tn : truthy (Some name) = Some name)
    by (cbn; apply String.eqb_neq in Hne; rewrite Hne; reflexivity).
  cbn [Cli.run_command]. unfold Cli.cmd_create_page, Cli.cmd_create_db.
  rewrite Tn. split; reflexivity.
Qed.

Lemma title_ignored_with_template_witness :
  let e := mk_env (Some "secret") "cfg" sample_config "templates"
             (fun _ => Some (JObj [("object", JStr "page")])) in
  Cli.run_command Cli.toy_loads e (CreatePage "project-db" (Some "project-page") (Some "A"))
  = Cli.run_command Cli.toy_loads e (CreatePage "project-db" (Some "project-page") None) /\
  Cli.run_command Cli.toy_loads e (CreateDb "project-db" (Some "project-page") (Some "A"))
  = Cli.run_command Cli.toy_loads e (CreateDb "project-db" (Some "project-page") None).
Proof. intros e. apply title_ignored_with_template. discriminate. Defined.
